(** * eth_kdj_trader: a shallow embedding of the KDJ polling trader

    The Python program [eth_kdj_trader.py] polls an exchange, computes a KDJ
    oscillator over 15-minute bars and buys or closes one position; a second
    thread keeps a websocket subscription alive.  The exchange client, the
    websocket transport, the indicator library and the JSON parser are
    external: they are fields of an environment record, and every call to
    them is recorded in a trace of events. *)

From Stdlib Require Import List String Ascii ZArith Bool Arith Lia PrimFloat.
Import ListNotations.
Open Scope string_scope.
Open Scope list_scope.

(** ** Python values *)

Module Py.

(** [str.lower()] on the ASCII range. *)
Definition lower_ascii (c : ascii) : ascii :=
  let n := nat_of_ascii c in
  if (Nat.leb 65 n && Nat.leb n 90)%bool then ascii_of_nat (n + 32) else c.

Fixpoint lower (s : string) : string :=
  match s with
  | EmptyString => EmptyString
  | String c r => String (lower_ascii c) (lower r)
  end.

(** [needle in hay] for two strings. *)
Fixpoint str_in (needle hay : string) : bool :=
  (String.prefix needle hay ||
   match hay with
   | EmptyString => false
   | String _ r => str_in needle r
   end)%bool.

(** [k in l] for a list of strings. *)
Definition mem (k : string) (l : list string) : bool :=
  existsb (String.eqb k) l.

(** Exceptions: the exchange client's [APIError], whose [status_code] is
    [None] when no HTTP response is attached, and every other subclass of
    [Exception], kept with its class name.  [str_exn] is [str(e)]. *)
Inductive exn : Type :=
| APIError (status_code : option Z) (message : string)
| PyExc (class message : string).

Definition str_exn (e : exn) : string :=
  match e with
  | APIError _ m => m
  | PyExc _ m => m
  end.

Inductive Res (A : Type) : Type :=
| Ok (a : A)
| Raise (e : exn).
Arguments Ok {A} a.
Arguments Raise {A} e.

(** What [json.loads] returns.  A dict is an association list read at the
    first binding of a key. *)
#[warnings="-register-all"]
Inductive json : Type :=
| JNull
| JBool (b : bool)
| JInt (z : Z)
| JFloat (f : float)
| JStr (s : string)
| JArr (l : list json)
| JObj (kv : list (string * json)).

Fixpoint assoc {A : Type} (k : string) (kv : list (string * A)) : option A :=
  match kv with
  | [] => None
  | (k', v) :: r => if String.eqb k k' then Some v else assoc k r
  end.

(** [bool(v)] *)
Definition truthy (v : json) : bool :=
  match v with
  | JNull => false
  | JBool b => b
  | JInt z => negb (Z.eqb z 0)
  | JFloat f => negb (PrimFloat.eqb f 0%float)
  | JStr s => negb (String.eqb s "")
  | JArr l => match l with [] => false | _ => true end
  | JObj kv => match kv with [] => false | _ => true end
  end.

(** [v == s] for a string literal [s] *)
Definition eq_str (v : json) (s : string) : bool :=
  match v with
  | JStr s' => String.eqb s' s
  | _ => false
  end.

(** [v[0]] *)
Definition getitem0 (v : json) : Res json :=
  match v with
  | JArr (x :: _) => Ok x
  | JArr [] => Raise (PyExc "IndexError" "list index out of range")
  | JStr (String c _) => Ok (JStr (String c EmptyString))
  | JStr EmptyString => Raise (PyExc "IndexError" "string index out of range")
  | JObj _ => Raise (PyExc "KeyError" "0")
  | _ => Raise (PyExc "TypeError" "object is not subscriptable")
  end.

(** [k in v] for a string literal [k] *)
Definition contains (k : string) (v : json) : Res bool :=
  match v with
  | JObj kv => Ok (mem k (map fst kv))
  | JArr l => Ok (existsb (fun x => eq_str x k) l)
  | JStr s => Ok (str_in k s)
  | _ => Raise (PyExc "TypeError" "argument is not iterable")
  end.

(** [v.get(k, default)]; [v.get(k)] has default [JNull] *)
Definition get (v : json) (k : string) (default : json) : Res json :=
  match v with
  | JObj kv => Ok (match assoc k kv with Some x => x | None => default end)
  | _ => Raise (PyExc "AttributeError" "object has no attribute 'get'")
  end.

(** [v[k]] for a string literal [k] *)
Definition getitem (v : json) (k : string) : Res json :=
  match v with
  | JObj kv =>
      match assoc k kv with
      | Some x => Ok x
      | None => Raise (PyExc "KeyError" k)
      end
  | _ => Raise (PyExc "TypeError" "indices must be integers")
  end.

End Py.
Export Py.

(** ** pandas frames

    A frame is its column labels and its rows; labels may repeat, as pandas
    allows.  The index is not modelled beyond its length. *)

Module Pandas.

Definition Series := list float.

Record DataFrame : Type := mkDF {
  columns : list string;
  rows : list (list float)
}.

(** [pd.DataFrame()] *)
Definition pd_DataFrame : DataFrame := mkDF [] [].

(** [len(df)] *)
Definition len (df : DataFrame) : nat := List.length (rows df).

(** [df.empty]: some axis has length 0 *)
Definition empty (df : DataFrame) : bool :=
  (Nat.eqb (List.length (columns df)) 0 || Nat.eqb (List.length (rows df)) 0)%bool.

(** [df.columns = labels] *)
Definition set_columns (df : DataFrame) (labels : list string) : DataFrame :=
  mkDF labels (rows df).

(** Positions of the columns labelled [l]. *)
Fixpoint positions_from (i : nat) (l : string) (cols : list string) : list nat :=
  match cols with
  | [] => []
  | c :: r =>
      if String.eqb l c then i :: positions_from (S i) l r
      else positions_from (S i) l r
  end.

Definition positions (l : string) (cols : list string) : list nat :=
  positions_from 0 l cols.

Definition cell (r : list float) (i : nat) : float := nth i r nan.

(** [df[l]]: the columns labelled [l] (one Series, or a frame of several
    when the label repeats); [KeyError] when there is none. *)
Definition getitem_label (df : DataFrame) (l : string) : Res (list Series) :=
  match positions l (columns df) with
  | [] => Raise (PyExc "KeyError" l)
  | ps => Ok (map (fun i => map (fun r => cell r i) (rows df)) ps)
  end.

(** [df.rename(columns=mapping)] *)
Definition rename (df : DataFrame) (mapping : list (string * string)) : DataFrame :=
  mkDF (map (fun c => match assoc c mapping with Some c' => c' | None => c end)
            (columns df))
       (rows df).

(** [df[[l1, ..., ln]]]: for each requested label, in order, every column
    that carries it; [KeyError] when a label is absent. *)
Definition getitem_labels (df : DataFrame) (ls : list string) : Res DataFrame :=
  match find (fun l => negb (mem l (columns df))) ls with
  | Some l => Raise (PyExc "KeyError" l)
  | None =>
      let sel :=
        flat_map (fun l => map (fun i => (l, i)) (positions l (columns df))) ls in
      Ok (mkDF (map fst sel)
               (map (fun r => map (fun p => cell r (snd p)) sel) (rows df)))
  end.

(** One row of a frame: what [df.iloc[i]] returns. *)
Record Row : Type := mkRow {
  row_labels : list string;
  row_values : list float
}.

(** [df.iloc[-k]] for [k] = 1, 2 *)
Definition iloc_neg (df : DataFrame) (k : nat) : Res Row :=
  match nth_error (rev (rows df)) (k - 1) with
  | Some r => Ok (mkRow (columns df) r)
  | None => Raise (PyExc "IndexError" "single positional indexer is out-of-bounds")
  end.

(** [row[l]] used as a number: the value under the label; [KeyError] when
    the label is absent; when it repeats the lookup yields a Series, which
    has no truth value in a condition and no float format. *)
Definition row_getitem (r : Row) (l : string) : Res float :=
  match positions l (row_labels r) with
  | [] => Raise (PyExc "KeyError" l)
  | [i] => Ok (cell (row_values r) i)
  | _ => Raise (PyExc "ValueError" "The truth value of a Series is ambiguous")
  end.

End Pandas.
Export Pandas.

(** ** The exchange, the log and the trace *)

Inductive level : Type := INFO | WARNING | ERROR | CRITICAL.

(** [datetime.min.time()] and [datetime.max.time()] *)
Inductive time_of_day : Type := TimeMin | TimeMax.

(** [timezone.localize(datetime.combine(date, time))]; a date is its day
    number, so [date - timedelta(days=30)] is a subtraction. *)
Record datetime : Type := mkDT {
  dt_date : Z;
  dt_time : time_of_day;
  dt_tz : string
}.

Record Account : Type := mkAccount { acc_buying_power : string }.

Record Position : Type := mkPosition { pos_symbol : string; pos_qty : string }.

Record Quote : Type := mkQuote { quote_bid : float; quote_ask : float }.

(** The keyword arguments of [api.submit_order]. *)
Record Order : Type := mkOrder {
  ord_symbol : string;
  ord_notional : float;
  ord_side : string;
  ord_type : string;
  ord_time_in_force : string
}.

(** One constructor per [logger] call of the program, with the values its
    message formats.  The comment gives the function of the call. *)
Inductive logmsg : Type :=
(* fetch_15min_data *)
| MsgBarsEmpty (symbol : string)
| MsgBarsTail
| MsgBarsFailed (symbol err : string)
(* calculate_kdj *)
| MsgKdjTail
| MsgKdjColumnsMissing (expected actual : list string)
| MsgKdjFailed (err : string)
(* place_order *)
| MsgNoQuote (symbol : string)
| MsgBuyPlaced (buying_power : float) (symbol : string)
| MsgSellNotImplemented
| MsgUnsupportedSide (side : string)
| MsgOrderFailed (symbol side err : string)
(* close_position *)
| MsgCloseOk (symbol : string)
| MsgCloseNoPosition (symbol : string)
| MsgCloseFailed (symbol err : string)
| MsgCloseFailedOther (symbol err : string)
(* websocket_stream *)
| MsgWsConnected
| MsgTradeUpdate (fields : list json)
| MsgWsPositionFailed (symbol err : string)
| MsgWsStreams (streams : json)
| MsgWsHandlerError (err : string)
| MsgWsError (err : string)
| MsgWsClosed (close_status_code : Z) (close_msg : string)
| MsgWsReconnecting
| MsgWsOpen
(* the poll loop *)
| MsgBuyingPower (buying_power : float)
| MsgNoBars
| MsgKdjInsufficient
| MsgPositionsFailedNon404 (err : string)
| MsgPositionsFailed (err : string)
| MsgBuySignal (symbol : string) (k : float)
| MsgSellSignal (symbol : string) (k : float)
| MsgHold (symbol : string) (k d j : float) (qty : option string)
| MsgWaiting
| MsgLoopError (err : string).

(** What the program does to the outside, in order. *)
Inductive event : Type :=
| EvGetAccount
| EvGetCryptoBars (symbol timeframe : string) (start end_ : datetime)
| EvListPositions
| EvGetLatestCryptoQuotes (symbols : list string)
| EvSubmitOrder (o : Order)
| EvClosePosition (symbol : string)
| EvSleep (seconds : Z)
| EvLog (lv : level) (m : logmsg)
| EvWsSend (payload : json)
| EvWsRunForever (url : string) (ping_interval ping_timeout : Z).

(** The collaborators.  [World] is the state of everything outside the
    process (exchange, socket, clock); a call may change it and may raise.
    [ta_kdj] is [pandas_ta.kdj] on the three selections and the length: it
    returns a frame, [None], or raises.  [py_float] is [float()] on the
    account's buying power and [json_loads] is [json.loads].
    [index_tz_convert bars tz] is [bars.index.tz_convert(tz)]: the index of
    a frame is not modelled, so whether the conversion raises (an index
    without a time zone, or not of datetimes) is the environment's answer. *)
Record Env (World : Type) : Type := mkEnv {
  api_get_account : World -> Res Account * World;
  api_get_crypto_bars :
    string -> string -> datetime -> datetime -> World -> Res DataFrame * World;
  api_list_positions : World -> Res (list Position) * World;
  api_get_latest_crypto_quotes :
    list string -> World -> Res (list (string * option Quote)) * World;
  api_submit_order : Order -> World -> Res unit * World;
  api_close_position : string -> World -> Res unit * World;
  ws_send : json -> World -> Res unit * World;
  time_sleep : Z -> World -> World;
  today : World -> Z;
  ta_kdj : list Series -> list Series -> list Series -> Z -> Res (option DataFrame);
  py_float : string -> Res float;
  json_loads : string -> Res json;
  index_tz_convert : DataFrame -> string -> Res unit
}.
Arguments api_get_account {World} e w.
Arguments api_get_crypto_bars {World} e symbol timeframe start end_ w.
Arguments api_list_positions {World} e w.
Arguments api_get_latest_crypto_quotes {World} e symbols w.
Arguments api_submit_order {World} e o w.
Arguments api_close_position {World} e symbol w.
Arguments ws_send {World} e payload w.
Arguments time_sleep {World} e seconds w.
Arguments today {World} e w.
Arguments ta_kdj {World} e high low close length.
Arguments py_float {World} e s.
Arguments json_loads {World} e s.
Arguments index_tz_convert {World} e bars tz.

(** ** A monad for the program: world, exceptions and the trace *)

Definition M (World A : Type) : Type := World -> Res A * World * list event.

Definition result_of {World A} (x : Res A * World * list event) : Res A := fst (fst x).
Definition world_of {World A} (x : Res A * World * list event) : World := snd (fst x).
Definition trace_of {World A} (x : Res A * World * list event) : list event := snd x.

Definition ret {World A} (a : A) : M World A := fun w => (Ok a, w, []).

Definition lift {World A} (r : Res A) : M World A := fun w => (r, w, []).

Definition bind {World A B} (m : M World A) (f : A -> M World B) : M World B :=
  fun w =>
    match m w with
    | (Ok a, w1, t1) => let '(r, w2, t2) := f a w1 in (r, w2, t1 ++ t2)
    | (Raise e, w1, t1) => (Raise e, w1, t1)
    end.

(** [try: m  except Exception as e: h e] *)
Definition try_except {World A} (m : M World A) (h : exn -> M World A) : M World A :=
  fun w =>
    match m w with
    | (Ok a, w1, t1) => (Ok a, w1, t1)
    | (Raise e, w1, t1) => let '(r, w2, t2) := h e w1 in (r, w2, t1 ++ t2)
    end.

Definition emit {World} (ev : event) : M World unit := fun w => (Ok tt, w, [ev]).

(** A call to a collaborator, recorded when it is made. *)
Definition call {World A} (ev : event) (f : World -> Res A * World) : M World A :=
  fun w => let '(r, w1) := f w in (r, w1, [ev]).

Declare Scope py_scope.
Delimit Scope py_scope with py.
Notation "x <- m ;; k" := (bind m (fun x => k))
  (at level 61, m at next level, right associativity) : py_scope.
Notation "m ;; k" := (bind m (fun _ => k))
  (at level 61, right associativity) : py_scope.
Open Scope py_scope.

(** ** The program *)

Section Trader.

Context {World : Type} (env : Env World).

(** The credentials [load_config] returns. *)
Variables api_key secret_key : string.

Definition log (lv : level) (m : logmsg) : M World unit := emit (EvLog lv m).

(** [time.sleep(seconds)] *)
Definition sleep (seconds : Z) : M World unit :=
  fun w => (Ok tt, time_sleep env seconds w, [EvSleep seconds]).

(** [fetch_15min_data(api, symbol, start_date, end_date)].  Converting the
    index to New York time (line 54) may raise, inside the [try]; when it
    does not, it and the naming of the index (line 55) change neither the
    columns nor the rows. *)
Definition fetch_15min_data (symbol : string) (start_date end_date : Z)
  : M World (option DataFrame) :=
  try_except
    (let timezone := "America/New_York" in
     let start_datetime := mkDT start_date TimeMin timezone in
     let end_datetime := mkDT end_date TimeMax timezone in
     bars <- call (EvGetCryptoBars symbol "15Min" start_datetime end_datetime)
                  (api_get_crypto_bars env symbol "15Min" start_datetime end_datetime) ;;
     if empty bars then
       log WARNING (MsgBarsEmpty symbol) ;;
       ret None
     else
       lift (index_tz_convert env bars "America/New_York") ;;
       log INFO MsgBarsTail ;;
       ret (Some bars))
    (fun e =>
       log ERROR (MsgBarsFailed symbol (str_exn e)) ;;
       ret None).

Definition expected_k_col : string := "K_9_3".
Definition expected_d_col : string := "D_9_3".
Definition expected_j_col : string := "J_9_3".

(** Lines 65-67 of [calculate_kdj]: the call of the indicator library. *)
Definition kdj_call (data : DataFrame) : Res (option DataFrame) :=
  let data := set_columns data (map lower (columns data)) in
  match getitem_label data "high" with
  | Raise e => Raise e
  | Ok high =>
      match getitem_label data "low" with
      | Raise e => Raise e
      | Ok low =>
          match getitem_label data "close" with
          | Raise e => Raise e
          | Ok close => ta_kdj env high low close 9
          end
      end
  end.

(** [calculate_kdj(data)] *)
Definition calculate_kdj (data : DataFrame) : M World DataFrame :=
  try_except
    (kdj_result <- lift (kdj_call data) ;;
     match kdj_result with
     | None =>
         (* [kdj_result.columns] on [None] *)
         lift (Raise (PyExc "AttributeError"
                        "'NoneType' object has no attribute 'columns'"))
     | Some kdj_result =>
         if (mem expected_k_col (columns kdj_result)
             && mem expected_d_col (columns kdj_result)
             && mem expected_j_col (columns kdj_result))%bool
         then
           let final_kdj :=
             rename kdj_result [(expected_k_col, "K_9");
                                (expected_d_col, "D_9");
                                (expected_j_col, "J_9")] in
           final_kdj <- lift (getitem_labels final_kdj ["K_9"; "D_9"; "J_9"]) ;;
           log INFO MsgKdjTail ;;
           ret final_kdj
         else
           log ERROR (MsgKdjColumnsMissing
                        [expected_k_col; expected_d_col; expected_j_col]
                        (columns kdj_result)) ;;
           ret pd_DataFrame
     end)
    (fun e =>
       log ERROR (MsgKdjFailed (str_exn e)) ;;
       ret pd_DataFrame).

(** [place_order(api, symbol, buying_power, side)].  In the dict of
    quotes a value that is false in a condition is [None]. *)
Definition place_order (symbol : string) (buying_power : float) (side : string)
  : M World bool :=
  try_except
    (quotes <- call (EvGetLatestCryptoQuotes [symbol])
                    (api_get_latest_crypto_quotes env [symbol]) ;;
     match assoc symbol quotes with
     | None | Some None =>
         log ERROR (MsgNoQuote symbol) ;;
         ret false
     | Some (Some latest_quote) =>
         if String.eqb side "buy" then
           call (EvSubmitOrder (mkOrder symbol buying_power "buy" "market" "gtc"))
                (api_submit_order env
                   (mkOrder symbol buying_power "buy" "market" "gtc")) ;;
           log INFO (MsgBuyPlaced buying_power symbol) ;;
           ret true
         else if String.eqb side "sell" then
           log WARNING MsgSellNotImplemented ;;
           ret false
         else
           log ERROR (MsgUnsupportedSide side) ;;
           ret false
     end)
    (fun e =>
       log ERROR (MsgOrderFailed symbol side (str_exn e)) ;;
       ret false).

(** [status_code == n], where [status_code] may be [None] *)
Definition status_is (status_code : option Z) (n : Z) : bool :=
  match status_code with
  | Some c => Z.eqb c n
  | None => false
  end.

(** [close_position(api, symbol)] *)
Definition close_position (symbol : string) : M World bool :=
  try_except
    (call (EvClosePosition symbol) (api_close_position env symbol) ;;
     log INFO (MsgCloseOk symbol) ;;
     ret true)
    (fun e =>
       match e with
       | APIError status_code _ =>
           if (status_is status_code 404
               && str_in "position does not exist" (lower (str_exn e)))%bool
           then
             log INFO (MsgCloseNoPosition symbol) ;;
             ret true
           else
             log ERROR (MsgCloseFailed symbol (str_exn e)) ;;
             ret false
       | PyExc _ _ =>
           log ERROR (MsgCloseFailedOther symbol (str_exn e)) ;;
           ret false
       end).

(** *** The stream listener *)

Definition ws_url : string := "wss://stream.data.alpaca.markets/v1beta3/crypto/us".

(** The objects given to [json.dumps] before [ws.send]. *)
Definition auth_msg : json :=
  JObj [("action", JStr "auth"); ("key", JStr api_key); ("secret", JStr secret_key)].

Definition subscribe_msg (symbol : string) : json :=
  JObj [("action", JStr "subscribe"); ("quotes", JArr [JStr symbol]);
        ("trade_updates", JArr [])].

Definition send (payload : json) : M World unit :=
  call (EvWsSend payload) (ws_send env payload).

(** The body of the [try] of [on_message]. *)
Definition on_message_body (symbol message : string) : M World unit :=
  data <- lift (json_loads env message) ;;
  no_tag <- (if negb (truthy data) then ret true
             else
               d0 <- lift (getitem0 data) ;;
               has_t <- lift (contains "T" d0) ;;
               ret (negb has_t)) ;;
  if (no_tag : bool) then
    d0 <- lift (getitem0 data) ;;
    msg <- lift (get d0 "msg" JNull) ;;
    if eq_str msg "connected" then
      log INFO MsgWsConnected ;;
      send auth_msg ;;
      send (subscribe_msg symbol)
    else ret tt
  else
    d0 <- lift (getitem0 data) ;;
    message_type <- lift (getitem d0 "T") ;;
    if eq_str message_type "trade_update" then
      d0 <- lift (getitem0 data) ;;
      order <- lift (get d0 "order" (JObj [])) ;;
      id <- lift (get order "id" JNull) ;;
      status <- lift (get order "status" JNull) ;;
      order_type <- lift (get order "order_type" JNull) ;;
      side <- lift (get order "side" JNull) ;;
      qty <- lift (get order "qty" JNull) ;;
      filled_avg_price <- lift (get order "filled_avg_price" JNull) ;;
      log INFO (MsgTradeUpdate [id; status; order_type; side; qty; filled_avg_price])
    else if eq_str message_type "q" then
      quote <- lift (getitem0 data) ;;
      try_except
        (ret tt)
        (fun e =>
           if (negb (str_in "position does not exist" (lower (str_exn e)))
               && negb (str_in "404 client error" (lower (str_exn e))))%bool
           then log WARNING (MsgWsPositionFailed symbol (str_exn e))
           else ret tt)
    else if eq_str message_type "s" then
      d0 <- lift (getitem0 data) ;;
      streams <- lift (get d0 "streams" JNull) ;;
      log INFO (MsgWsStreams streams)
    else ret tt.

(** [on_message(ws, message)] *)
Definition on_message (symbol message : string) : M World unit :=
  try_except
    (on_message_body symbol message)
    (fun e => log ERROR (MsgWsHandlerError (str_exn e))).

(** [on_error(ws, error)] *)
Definition on_error (error : string) : M World unit :=
  log ERROR (MsgWsError error).

(** [on_open(ws)] *)
Definition on_open (symbol : string) : M World unit :=
  log INFO MsgWsOpen ;;
  send auth_msg ;;
  send (subscribe_msg symbol).

(** What the transport delivers to the listener, in order. *)
Inductive callback : Type :=
| CbOpen
| CbMessage (message : string)
| CbError (error : string)
| CbClose (close_status_code : Z) (close_msg : string).

(** The websocket library runs a callback and hands an exception that
    escapes it to [on_error]. *)
Definition run_callback (m : M World unit) : M World unit :=
  try_except m (fun e => on_error (str_exn e)).

(** [asyncio.run(websocket_stream(...))] at line 188.  [on_close] runs in
    the listener's thread, inside the [asyncio.run] of line 214 that runs
    [websocket_stream]: with a loop already running, [asyncio.run] raises. *)
Definition asyncio_run_nested : M World unit :=
  lift (Raise (PyExc "RuntimeError"
                     "asyncio.run() cannot be called from a running event loop")).

(** [on_close(ws, close_status_code, close_msg)] *)
Definition on_close (close_status_code : Z) (close_msg : string) : M World unit :=
  log INFO (MsgWsClosed close_status_code close_msg) ;;
  log INFO MsgWsReconnecting ;;
  sleep 5 ;;
  asyncio_run_nested.

(** [ws.run_forever(ping_interval=30, ping_timeout=10)] over the callbacks
    the transport delivers.  A close is the last of them: the library runs
    [on_close] and [run_forever] returns. *)
Fixpoint run_forever (symbol : string) (script : list callback) : M World unit :=
  match script with
  | [] => ret tt
  | CbOpen :: rest =>
      run_callback (on_open symbol) ;;
      run_forever symbol rest
  | CbMessage message :: rest =>
      run_callback (on_message symbol message) ;;
      run_forever symbol rest
  | CbError error :: rest =>
      run_callback (on_error error) ;;
      run_forever symbol rest
  | CbClose close_status_code close_msg :: rest =>
      run_callback (on_close close_status_code close_msg)
  end.

(** [websocket_stream(api_key, secret_key, symbol, api)] *)
Definition websocket_stream (symbol : string) (script : list callback) : M World unit :=
  emit (EvWsRunForever ws_url 30 10) ;;
  run_forever symbol script.

(** *** The poll loop (lines 224-284) *)

(** Lines 229-241: account, bars, indicator.  [None] is the [continue]
    after a minute's sleep. *)
Definition poll_fetch (symbol : string) (start_date end_date : Z)
  : M World (option (float * DataFrame)) :=
  account <- call EvGetAccount (api_get_account env) ;;
  buying_power <- lift (py_float env (acc_buying_power account)) ;;
  log INFO (MsgBuyingPower buying_power) ;;
  data <- fetch_15min_data symbol start_date end_date ;;
  match data with
  | None =>
      log WARNING MsgNoBars ;;
      sleep 60 ;;
      ret None
  | Some data =>
      if empty data then
        log WARNING MsgNoBars ;;
        sleep 60 ;;
        ret None
      else
        let data := set_columns data (map lower (columns data)) in
        kdj <- calculate_kdj data ;;
        ret (Some (buying_power, kdj))
  end.

(** Lines 242-248: the gate on the indicator frame, then the latest and
    the previous row. *)
Definition poll_latest (kdj : DataFrame) : M World (option (Row * option Row)) :=
  if (empty kdj || Nat.ltb (len kdj) 1)%bool then
    log WARNING MsgKdjInsufficient ;;
    sleep 60 ;;
    ret None
  else
    latest_kdj <- lift (iloc_neg kdj 1) ;;
    prev_kdj <- (if Nat.leb 2 (len kdj)
                 then r <- lift (iloc_neg kdj 2) ;; ret (Some r)
                 else ret None) ;;
    ret (Some (latest_kdj, prev_kdj)).

(** Lines 250-265: the position of the symbol, [None] on any failure. *)
Definition poll_position (symbol : string) : M World (option Position) :=
  try_except
    (positions <- call EvListPositions (api_list_positions env) ;;
     ret (find (fun p => String.eqb (pos_symbol p) symbol) positions))
    (fun e =>
       match e with
       | APIError status_code _ =>
           (if negb (status_is status_code 404)
            then log WARNING (MsgPositionsFailedNon404 (str_exn e))
            else ret tt) ;;
           ret None
       | PyExc _ _ =>
           log WARNING (MsgPositionsFailed (str_exn e)) ;;
           ret None
       end).

Definition is_none {A : Type} (o : option A) : bool :=
  match o with
  | None => true
  | Some _ => false
  end.

(** Lines 268-280: the decision on the latest row, then the wait. *)
Definition poll_decide (symbol : string) (buying_power : float)
           (latest_kdj : Row) (current_position : option Position) : M World unit :=
  k <- lift (row_getitem latest_kdj "K_9") ;;
  (if (PrimFloat.ltb k 20 && is_none current_position)%bool then
     k <- lift (row_getitem latest_kdj "K_9") ;;
     log INFO (MsgBuySignal symbol k) ;;
     place_order symbol buying_power "buy" ;;
     ret tt
   else
     k <- lift (row_getitem latest_kdj "K_9") ;;
     if (PrimFloat.ltb 80 k && negb (is_none current_position))%bool then
       k <- lift (row_getitem latest_kdj "K_9") ;;
       log INFO (MsgSellSignal symbol k) ;;
       close_position symbol ;;
       ret tt
     else
       let pos_info := option_map pos_qty current_position in
       k <- lift (row_getitem latest_kdj "K_9") ;;
       d <- lift (row_getitem latest_kdj "D_9") ;;
       j <- lift (row_getitem latest_kdj "J_9") ;;
       log INFO (MsgHold symbol k d j pos_info)) ;;
  log INFO MsgWaiting ;;
  sleep (15 * 60).

(** The body of the [try] of one iteration. *)
Definition poll_cycle_body (symbol : string) (start_date end_date : Z) : M World unit :=
  fetched <- poll_fetch symbol start_date end_date ;;
  match fetched with
  | None => ret tt
  | Some (buying_power, kdj) =>
      rows <- poll_latest kdj ;;
      match rows with
      | None => ret tt
      | Some (latest_kdj, prev_kdj) =>
          current_position <- poll_position symbol ;;
          poll_decide symbol buying_power latest_kdj current_position
      end
  end.

(** One iteration of [while True]. *)
Definition poll_cycle (symbol : string) (start_date end_date : Z) : M World unit :=
  try_except
    (poll_cycle_body symbol start_date end_date)
    (fun e =>
       log ERROR (MsgLoopError (str_exn e)) ;;
       sleep 60).

(** The first [n] iterations of the loop, which has no exit. *)
Fixpoint poll_loop (n : nat) (symbol : string) (start_date end_date : Z) : M World unit :=
  match n with
  | O => ret tt
  | S n' =>
      poll_cycle symbol start_date end_date ;;
      poll_loop n' symbol start_date end_date
  end.

(** [symbol = "ETH/USDC"] at line 200 *)
Definition main_symbol : string := "ETH/USDC".

(** Lines 224-227 and the loop: the window is taken from the clock once. *)
Definition main (n : nat) : M World unit :=
  end_date <- (fun w => (Ok (today env w), w, [])) ;;
  let start_date := (end_date - 30)%Z in
  poll_loop n main_symbol start_date end_date.

End Trader.

(** ** A scripted exchange, for examples

    The world is a clock in seconds; every collaborator answers as the
    script says, whatever the clock. *)

Module Demo.

Record script : Type := mkScript {
  s_account : Res Account;
  s_bars : Res DataFrame;
  s_kdj : Res (option DataFrame);
  s_positions : Res (list Position);
  s_quotes : Res (list (string * option Quote));
  s_submit : Res unit;
  s_close : Res unit
}.

Definition parse_float (s : string) : Res float :=
  if String.eqb s "1000.00" then Ok 1000%float
  else Raise (PyExc "ValueError" "could not convert string to float").

Definition parse_json (s : string) : Res json :=
  if String.eqb s "[{msg: connected}]" then
    Ok (JArr [JObj [("msg", JStr "connected")]])
  else if String.eqb s "[{T: q}]" then
    Ok (JArr [JObj [("T", JStr "q")]])
  else if String.eqb s "[]" then
    Ok (JArr [])
  else Raise (PyExc "JSONDecodeError" "Expecting value").

Definition env (s : script) : Env Z :=
  mkEnv Z
    (fun w => (s_account s, w))
    (fun _ _ _ _ w => (s_bars s, w))
    (fun w => (s_positions s, w))
    (fun _ w => (s_quotes s, w))
    (fun _ w => (s_submit s, w))
    (fun _ w => (s_close s, w))
    (fun _ w => (Ok tt, w))
    (fun seconds w => (w + seconds)%Z)
    (fun w => (w / 86400)%Z)
    (fun _ _ _ _ => s_kdj s)
    parse_float
    parse_json
    (fun _ _ => Ok tt).

Definition bars : DataFrame :=
  mkDF ["Open"; "High"; "Low"; "Close"; "Volume"]
       [[100; 110; 90; 105; 7]%float].

(** An indicator frame of one row with the given K. *)
Definition kdj1 (k : float) : DataFrame :=
  mkDF ["K_9_3"; "D_9_3"; "J_9_3"] [[k; 30; 10]%float].

(** The latest row a cycle reads from [calculate_kdj] on [kdj1 k]. *)
Definition row1 (k : float) : Row :=
  mkRow ["K_9"; "D_9"; "J_9"] [k; 30; 10]%float.

Definition eth : string := "ETH/USDC".

Definition quote : Quote := mkQuote 2000 2001.

(** K = 15, no position, a quote, 1000.00 of buying power. *)
Definition buy_script : script :=
  mkScript (Ok (mkAccount "1000.00")) (Ok bars) (Ok (Some (kdj1 15)))
           (Ok []) (Ok [(eth, Some quote)]) (Ok tt) (Ok tt).

(** The same, but the exchange has no quote for the symbol. *)
Definition no_quote_script : script :=
  mkScript (Ok (mkAccount "1000.00")) (Ok bars) (Ok (Some (kdj1 15)))
           (Ok []) (Ok []) (Ok tt) (Ok tt).

(** The same as [buy_script], but listing the positions fails with a 500. *)
Definition positions_down_script : script :=
  mkScript (Ok (mkAccount "1000.00")) (Ok bars) (Ok (Some (kdj1 15)))
           (Raise (APIError (Some 500%Z) "internal server error"))
           (Ok [(eth, Some quote)]) (Ok tt) (Ok tt).

(** K = 85 and an open position; [s_close] is the answer to the close. *)
Definition sell_script (close : Res unit) : script :=
  mkScript (Ok (mkAccount "1000.00")) (Ok bars) (Ok (Some (kdj1 85)))
           (Ok [mkPosition eth "0.5"]) (Ok [(eth, Some quote)]) (Ok tt) close.

(** K = 50, whatever the positions are. *)
Definition hold_script (positions : list Position) : script :=
  mkScript (Ok (mkAccount "1000.00")) (Ok bars) (Ok (Some (kdj1 50)))
           (Ok positions) (Ok [(eth, Some quote)]) (Ok tt) (Ok tt).

(** The indicator library gives up ([None]). *)
Definition short_history_script : script :=
  mkScript (Ok (mkAccount "1000.00")) (Ok bars) (Ok None)
           (Ok []) (Ok [(eth, Some quote)]) (Ok tt) (Ok tt).

End Demo.

(** ** Reading a trace *)

Definition is_submit (ev : event) : bool :=
  match ev with EvSubmitOrder _ => true | _ => false end.

Definition is_close (ev : event) : bool :=
  match ev with EvClosePosition _ => true | _ => false end.

(** The orders submitted, in order. *)
Fixpoint submitted (t : list event) : list Order :=
  match t with
  | [] => []
  | EvSubmitOrder o :: r => o :: submitted r
  | _ :: r => submitted r
  end.

(** The symbols whose position was asked to be closed, in order. *)
Fixpoint closed (t : list event) : list string :=
  match t with
  | [] => []
  | EvClosePosition s :: r => s :: closed r
  | _ :: r => closed r
  end.

(** The windows of the bar requests, in order. *)
Fixpoint bar_windows (t : list event) : list (datetime * datetime) :=
  match t with
  | [] => []
  | EvGetCryptoBars _ _ s e :: r => (s, e) :: bar_windows r
  | _ :: r => bar_windows r
  end.

(** The quote the exchange has for the symbol in world [w], if it has one:
    the call returns, the symbol is a key of the answer and its value is not
    false in a condition. *)
Definition latest_quote {World : Type} (env : Env World) (symbol : string) (w : World)
  : option Quote :=
  match fst (api_get_latest_crypto_quotes env [symbol] w) with
  | Ok quotes =>
      match assoc symbol quotes with
      | Some (Some q) => Some q
      | _ => None
      end
  | Raise _ => None
  end.

(** The events of the first half of a cycle: account, bars, log, sleep. *)
Definition market_data_event (ev : event) : bool :=
  match ev with
  | EvGetAccount | EvGetCryptoBars _ _ _ _ | EvSleep _ | EvLog _ _ => true
  | _ => false
  end.

(** The window [fetch_15min_data] asks for, from its two dates. *)
Definition window (start_date end_date : Z) : datetime * datetime :=
  (mkDT start_date TimeMin "America/New_York",
   mkDT end_date TimeMax "America/New_York").

Definition time_of_day_eqb (a b : time_of_day) : bool :=
  match a, b with
  | TimeMin, TimeMin | TimeMax, TimeMax => true
  | _, _ => false
  end.

Definition datetime_eqb (a b : datetime) : bool :=
  (Z.eqb (dt_date a) (dt_date b) && time_of_day_eqb (dt_time a) (dt_time b)
   && String.eqb (dt_tz a) (dt_tz b))%bool.

(** Every event but a bar request for another window. *)
Definition in_window (start_date end_date : Z) (ev : event) : bool :=
  match ev with
  | EvGetCryptoBars _ _ s e =>
      (datetime_eqb s (fst (window start_date end_date))
       && datetime_eqb e (snd (window start_date end_date)))%bool
  | _ => true
  end.

(** Every event but an order or a close. *)
Definition passive_event (ev : event) : bool :=
  negb (is_submit ev || is_close ev).

(** The state of a cycle when it is about to ask for the positions
    (line 250): the buying power, the latest row of the indicator and the
    world.  [None] when the cycle did not get that far. *)
Definition indicator_point {World : Type} (env : Env World)
           (symbol : string) (start_date end_date : Z) (w : World)
  : option (float * Row * World) :=
  match poll_fetch env symbol start_date end_date w with
  | (Ok (Some (buying_power, kdj)), w1, _) =>
      match poll_latest env kdj w1 with
      | (Ok (Some (latest_kdj, _)), w2, _) => Some (buying_power, latest_kdj, w2)
      | _ => None
      end
  | _ => None
  end.

(** The state of a cycle when it decides (line 268): the buying power, the
    latest row, the tracked position and the world. *)
Definition decision_point {World : Type} (env : Env World)
           (symbol : string) (start_date end_date : Z) (w : World)
  : option (float * Row * option Position * World) :=
  match indicator_point env symbol start_date end_date w with
  | Some (buying_power, latest_kdj, w2) =>
      match poll_position env symbol w2 with
      | (Ok current_position, w3, _) =>
          Some (buying_power, latest_kdj, current_position, w3)
      | _ => None
      end
  | None => None
  end.

(** [K < 20] and [K > 80] on a row, false when the row has no usable K. *)
Definition k_below_20 (latest_kdj : Row) : bool :=
  match row_getitem latest_kdj "K_9" with
  | Ok k => PrimFloat.ltb k 20
  | Raise _ => false
  end.

Definition k_above_80 (latest_kdj : Row) : bool :=
  match row_getitem latest_kdj "K_9" with
  | Ok k => PrimFloat.ltb 80 k
  | Raise _ => false
  end.

(** The market buy order of [place_order]. *)
Definition buy_order (symbol : string) (buying_power : float) : Order :=
  mkOrder symbol buying_power "buy" "market" "gtc".

(** The events a computation can emit all satisfy [P]. *)
Definition emits {World A : Type} (P : event -> bool) (m : M World A) : Prop :=
  forall w, forallb P (trace_of (m w)) = true.

(** The renaming of [calculate_kdj] and its test on the library's frame. *)
Definition kdj_mapping : list (string * string) :=
  [(expected_k_col, "K_9"); (expected_d_col, "D_9"); (expected_j_col, "J_9")].

Definition has_expected_columns (kdj_result : DataFrame) : bool :=
  (mem expected_k_col (columns kdj_result)
   && mem expected_d_col (columns kdj_result)
   && mem expected_j_col (columns kdj_result))%bool.

(** The ["action"] of a message the listener sends. *)
Definition action_of (ev : event) : option string :=
  match ev with
  | EvWsSend (JObj kv) =>
      match assoc "action" kv with
      | Some (JStr a) => Some a
      | _ => None
      end
  | _ => None
  end.

(** Traces in which a subscribe request comes only right after the
    credentials [auth]: a trace is made of events that are no subscribe
    request, and of [auth] followed by any one event. *)
Inductive auth_first (auth : json) : list event -> Prop :=
| auth_first_nil : auth_first auth []
| auth_first_pair (ev : event) (t : list event) :
    auth_first auth t -> auth_first auth (EvWsSend auth :: ev :: t)
| auth_first_other (ev : event) (t : list event) :
    action_of ev <> Some "subscribe" ->
    auth_first auth t -> auth_first auth (ev :: t).

(** What a message handler may do: log and send. *)
Definition handler_event (ev : event) : bool :=
  match ev with
  | EvLog _ _ | EvWsSend _ => true
  | _ => false
  end.

(** A reading of the listener that the program does not satisfy: a subscribe
    request goes out only when some message has come in. *)
Definition subscribes_only_after_message {World : Type} (env : Env World)
           (api_key secret_key symbol : string) (script : list callback)
           (w : World) : Prop :=
  forall pre ev post,
    trace_of (websocket_stream env api_key secret_key symbol script w)
    = pre ++ ev :: post ->
    action_of ev = Some "subscribe" ->
    exists message, In (CbMessage message) script.

(** ** Readings of a cycle that the program does not satisfy

    Each is refuted below on the scripted exchange. *)

(** A buy follows from K < 20 and a tracked position of [None] alone. *)
Definition buys_on_signal_alone {World : Type} (env : Env World)
           (symbol : string) (start_date end_date : Z) (w : World) : Prop :=
  forall buying_power latest_kdj w3,
    decision_point env symbol start_date end_date w
    = Some (buying_power, latest_kdj, None, w3) ->
    k_below_20 latest_kdj = true ->
    submitted (trace_of (poll_cycle env symbol start_date end_date w))
    = [buy_order symbol buying_power].

(** A position query that fails with anything but a 404 leaves the cycle
    without a buy and without a close. *)
Definition holds_when_position_unknown {World : Type} (env : Env World)
           (symbol : string) (start_date end_date : Z) (w : World) : Prop :=
  forall buying_power latest_kdj w2 status_code msg w3,
    indicator_point env symbol start_date end_date w
    = Some (buying_power, latest_kdj, w2) ->
    api_list_positions env w2 = (Raise (APIError status_code msg), w3) ->
    status_code <> Some 404%Z ->
    submitted (trace_of (poll_cycle env symbol start_date end_date w)) = []
    /\ closed (trace_of (poll_cycle env symbol start_date end_date w)) = [].

(** The position query is reached only with two rows of indicator. *)
Definition proceeds_only_with_two_points {World : Type} (env : Env World)
           (symbol : string) (start_date end_date : Z) (w : World) : Prop :=
  forall buying_power kdj w1 t1,
    poll_fetch env symbol start_date end_date w
    = (Ok (Some (buying_power, kdj)), w1, t1) ->
    In EvListPositions (trace_of (poll_cycle env symbol start_date end_date w)) ->
    2 <= len kdj.

(** ** More readings of a trace *)

(** The seconds of the sleeps, in order. *)
Fixpoint sleeps (t : list event) : list Z :=
  match t with
  | [] => []
  | EvSleep seconds :: r => seconds :: sleeps r
  | _ :: r => sleeps r
  end.

(** The number of account reads. *)
Fixpoint accounts (t : list event) : nat :=
  match t with
  | [] => 0
  | EvGetAccount :: r => S (accounts r)
  | _ :: r => accounts r
  end.

(** The number of connections the listener opens. *)
Fixpoint connects (t : list event) : nat :=
  match t with
  | [] => 0
  | EvWsRunForever _ _ _ :: r => S (connects r)
  | _ :: r => connects r
  end.

(** The number of closes the transport delivers. *)
Fixpoint closes_delivered (script : list callback) : nat :=
  match script with
  | [] => 0
  | CbClose _ _ :: r => S (closes_delivered r)
  | _ :: r => closes_delivered r
  end.

Definition no_sleep (ev : event) : bool :=
  match ev with EvSleep _ => false | _ => true end.

Definition no_account (ev : event) : bool :=
  match ev with EvGetAccount => false | _ => true end.

Definition no_connect (ev : event) : bool :=
  match ev with EvWsRunForever _ _ _ => false | _ => true end.

Definition is_log (ev : event) : bool :=
  match ev with EvLog _ _ => true | _ => false end.

(** The value of a dict under a key, [None] when the key is absent:
    [d.get(k)]. *)
Definition field (kv : list (string * json)) (k : string) : json :=
  match assoc k kv with
  | Some v => v
  | None => JNull
  end.

(** What the listener does: it logs, sends, sleeps and connects; it never
    calls the exchange client. *)
Definition listener_event (ev : event) : bool :=
  match ev with
  | EvLog _ _ | EvWsSend _ | EvSleep _ | EvWsRunForever _ _ _ => true
  | _ => false
  end.

(** The value of a library row under a label that occurs once. *)
Definition value_at (cols : list string) (l : string) (raw : list float) : float :=
  match positions l cols with
  | i :: _ => cell raw i
  | [] => nan
  end.

(** ** Start-up: [load_config] (lines 18-35) and lines 199-221

    The parser of [configparser], the file system, the REST client's
    constructor and the thread are collaborators.  [Config] is the state of
    the parser after [config.read]; [config_contains c s] is [s in config],
    [config_has_option c s k] is [k in config[s]] and [config_get c s k] is
    [config[s][k]].  [issubclass a b] tells whether the exception class [a]
    derives from [b]. *)

Inductive startup_msg : Type :=
| MsgConfigNotFound (path : string)
| MsgSectionMissing
| MsgKeyMissing (key : string)
| MsgConfigLoadFailed (err : string)
| MsgStreamStarted
| MsgStreamRunning
| MsgStreamFailed (err : string).

Inductive startup_event : Type :=
| SvPathExists (path : string)
| SvConfigRead (path : string)
| SvRest (api_key secret_key base_url api_version : string)
| SvThreadStart
| SvLog (lv : level) (m : startup_msg).

Record Host (Config : Type) : Type := mkHost {
  os_path_exists : string -> bool;
  config_read : string -> Res Config;
  config_contains : Config -> string -> bool;
  config_has_option : Config -> string -> string -> bool;
  config_get : Config -> string -> string -> Res string;
  issubclass : string -> string -> bool;
  rest_create : string -> string -> string -> string -> Res unit;
  thread_start : Res unit
}.
Arguments os_path_exists {Config} h path.
Arguments config_read {Config} h path.
Arguments config_contains {Config} h c section.
Arguments config_has_option {Config} h c section key.
Arguments config_get {Config} h c section key.
Arguments issubclass {Config} h a b.
Arguments rest_create {Config} h api_key secret_key base_url api_version.
Arguments thread_start {Config} h.

(** Start-up computations: what was done, and a value or an exception. *)
Definition Boot (A : Type) : Type := list startup_event * Res A.

Definition s_ret {A} (a : A) : Boot A := ([], Ok a).

Definition s_raise {A} (e : exn) : Boot A := ([], Raise e).

Definition s_do {A} (ev : startup_event) (r : Res A) : Boot A := ([ev], r).

Definition s_log (lv : level) (m : startup_msg) : Boot unit := ([SvLog lv m], Ok tt).

Definition s_bind {A B} (m : Boot A) (f : A -> Boot B) : Boot B :=
  match m with
  | (t1, Ok a) => let '(t2, r) := f a in (t1 ++ t2, r)
  | (t1, Raise e) => (t1, Raise e)
  end.

Section Startup.

Context {Config : Type} (host : Host Config).

Definition required_keys : list string := ["api_key"; "secret_key"; "base_url"].

Definition file_not_found : exn :=
  PyExc "FileNotFoundError" "config.ini 檔案未找到。".

Definition section_missing : exn :=
  PyExc "ValueError" "config.ini 格式錯誤：缺少 [alpaca] 部分。".

Definition key_missing (key : string) : exn :=
  PyExc "ValueError"
        ("config.ini 格式錯誤：[alpaca] 部分缺少 '" ++ key ++ "'。")%string.

(** The loop of lines 30-33 over the keys that remain. *)
Fixpoint check_keys (config : Config) (keys : list string) : Boot unit :=
  match keys with
  | [] => s_ret tt
  | key :: rest =>
      if negb (config_has_option host config "alpaca" key) then
        s_bind (s_log CRITICAL (MsgKeyMissing key)) (fun _ =>
        s_raise (key_missing key))
      else check_keys config rest
  end.

(** [load_config()] *)
Definition load_config : Boot (string * string * string) :=
  let config_file_path := "config.ini" in
  s_bind (s_do (SvPathExists config_file_path)
               (Ok (os_path_exists host config_file_path))) (fun found =>
  if negb found then
    s_bind (s_log CRITICAL (MsgConfigNotFound config_file_path)) (fun _ =>
    s_raise file_not_found)
  else
    s_bind (s_do (SvConfigRead config_file_path)
                 (config_read host config_file_path)) (fun config =>
    if negb (config_contains host config "alpaca") then
      s_bind (s_log CRITICAL MsgSectionMissing) (fun _ =>
      s_raise section_missing)
    else
      s_bind (check_keys config required_keys) (fun _ =>
      s_bind ([], config_get host config "alpaca" "api_key") (fun api_key =>
      s_bind ([], config_get host config "alpaca" "secret_key") (fun secret_key =>
      s_bind ([], config_get host config "alpaca" "base_url") (fun base_url =>
      s_ret (api_key, secret_key, base_url))))))).

(** [isinstance(e, (FileNotFoundError, ValueError))] *)
Definition is_config_failure (e : exn) : bool :=
  match e with
  | PyExc c _ =>
      (String.eqb c "FileNotFoundError" || issubclass host c "FileNotFoundError"
       || String.eqb c "ValueError" || issubclass host c "ValueError")%bool
  | APIError _ _ => false
  end.

(** How the lines before the loop end: [exit(code)], an exception nobody
    catches, or the credentials the loop and the listener run with. *)
Inductive started : Type :=
| Exit (code : Z)
| Uncaught (e : exn)
| Ready (api_key secret_key base_url : string).

(** Lines 203-221.  [ws_thread] is [None] at line 213, so the thread is
    created and started. *)
Definition startup : list startup_event * started :=
  match load_config with
  | (t, Raise e) =>
      if is_config_failure e
      then (t ++ [SvLog CRITICAL (MsgConfigLoadFailed (str_exn e))], Exit 1)
      else (t, Uncaught e)
  | (t, Ok (api_key, secret_key, base_url)) =>
      match rest_create host api_key secret_key base_url "v2" with
      | Raise e => (t ++ [SvRest api_key secret_key base_url "v2"], Uncaught e)
      | Ok _ =>
          let ws_thread : option unit := None in
          match ws_thread with
          | None =>
              match thread_start host with
              | Ok _ =>
                  (t ++ [SvRest api_key secret_key base_url "v2"; SvThreadStart;
                         SvLog INFO MsgStreamStarted],
                   Ready api_key secret_key base_url)
              | Raise e =>
                  (t ++ [SvRest api_key secret_key base_url "v2"; SvThreadStart;
                         SvLog ERROR (MsgStreamFailed (str_exn e))],
                   Exit 1)
              end
          | Some _ =>
              (t ++ [SvRest api_key secret_key base_url "v2";
                     SvLog INFO MsgStreamRunning],
               Ready api_key secret_key base_url)
          end
      end
  end.

End Startup.

(** What start-up does before it has the credentials. *)
Definition before_credentials (ev : startup_event) : bool :=
  match ev with
  | SvRest _ _ _ _ | SvThreadStart => false
  | _ => true
  end.

(** A configuration held as sections of options, for examples. *)
Module DemoHost.

Definition config : Type := list (string * list (string * string)).

Definition has_option (c : config) (section key : string) : bool :=
  match assoc section c with
  | Some options => mem key (map fst options)
  | None => false
  end.

Definition get_option (c : config) (section key : string) : Res string :=
  match assoc section c with
  | Some options =>
      match assoc key options with
      | Some v => Ok v
      | None => Raise (PyExc "KeyError" key)
      end
  | None => Raise (PyExc "KeyError" section)
  end.

Definition host (file : option config) : Host config :=
  mkHost config
    (fun _ => match file with Some _ => true | None => false end)
    (fun _ => match file with Some c => Ok c | None => Ok [] end)
    (fun c section => mem section (map fst c))
    has_option
    get_option
    (fun _ _ => false)
    (fun _ _ _ _ => Ok tt)
    (Ok tt).

Definition good : config :=
  [("alpaca", [("api_key", "k"); ("secret_key", "s");
               ("base_url", "https://paper-api.alpaca.markets")])].

(** No [api_key] and no [base_url]. *)
Definition no_keys : config := [("alpaca", [("secret_key", "s")])].

End DemoHost.

(** A scripted socket, for examples: every send answers [sent]. *)
Module DemoStream.

Definition parse_json (s : string) : Res json :=
  if String.eqb s "[{T: trade_update, order: {id: 7, status: filled}}]" then
    Ok (JArr [JObj [("T", JStr "trade_update");
                    ("order", JObj [("id", JInt 7); ("status", JStr "filled")])]])
  else Demo.parse_json s.

Definition env (sent : Res unit) : Env Z :=
  mkEnv Z
    (api_get_account (Demo.env Demo.buy_script))
    (api_get_crypto_bars (Demo.env Demo.buy_script))
    (api_list_positions (Demo.env Demo.buy_script))
    (api_get_latest_crypto_quotes (Demo.env Demo.buy_script))
    (api_submit_order (Demo.env Demo.buy_script))
    (api_close_position (Demo.env Demo.buy_script))
    (fun _ w => (sent, w))
    (time_sleep (Demo.env Demo.buy_script))
    (today (Demo.env Demo.buy_script))
    (ta_kdj (Demo.env Demo.buy_script))
    (py_float (Demo.env Demo.buy_script))
    parse_json
    (index_tz_convert (Demo.env Demo.buy_script)).

Definition broken_pipe : exn := PyExc "BrokenPipeError" "Broken pipe".

End DemoStream.

(** A reading of the indicator adapter that the program does not satisfy:
    a result that is not empty has the three columns K_9, D_9, J_9 and no
    other. *)
Definition returns_exactly_three_columns {World : Type} (env : Env World)
           (data : DataFrame) (w : World) : Prop :=
  forall r,
    result_of (calculate_kdj env data w) = Ok r ->
    empty r = false ->
    columns r = ["K_9"; "D_9"; "J_9"].

(** An indicator library whose frame has a column K_9 beside K_9_3. *)
Module DemoIndicator.

Definition doubled : DataFrame :=
  mkDF ["K_9_3"; "D_9_3"; "J_9_3"; "K_9"] [[15; 30; 10; 99]%float].

Definition script : Demo.script :=
  Demo.mkScript (Ok (mkAccount "1000.00")) (Ok Demo.bars) (Ok (Some doubled))
                (Ok []) (Ok []) (Ok tt) (Ok tt).

(** Two rows of indicator: K = 15, then K = 50. *)
Definition two_rows : DataFrame :=
  mkDF ["K_9_3"; "D_9_3"; "J_9_3"] [[15; 30; 10]%float; [50; 30; 10]%float].

Definition script2 : Demo.script :=
  Demo.mkScript (Ok (mkAccount "1000.00")) (Ok Demo.bars) (Ok (Some two_rows))
                (Ok []) (Ok [(Demo.eth, Some Demo.quote)]) (Ok tt) (Ok tt).

(** The exchange of [Demo.buy_script], with bars whose index does not
    convert to New York time. *)
Definition naive_index : exn :=
  PyExc "TypeError" "index is not a valid DatetimeIndex or PeriodIndex".

Definition naive_env : Env Z :=
  mkEnv Z
    (api_get_account (Demo.env Demo.buy_script))
    (api_get_crypto_bars (Demo.env Demo.buy_script))
    (api_list_positions (Demo.env Demo.buy_script))
    (api_get_latest_crypto_quotes (Demo.env Demo.buy_script))
    (api_submit_order (Demo.env Demo.buy_script))
    (api_close_position (Demo.env Demo.buy_script))
    (ws_send (Demo.env Demo.buy_script))
    (time_sleep (Demo.env Demo.buy_script))
    (today (Demo.env Demo.buy_script))
    (ta_kdj (Demo.env Demo.buy_script))
    (py_float (Demo.env Demo.buy_script))
    (json_loads (Demo.env Demo.buy_script))
    (fun _ _ => Raise naive_index).

End DemoIndicator.

(** * Properties *)

(** Unfolding the monad, and splitting on the answers of the collaborators. *)
Ltac unfold_monad :=
  unfold log, sleep, send in *;
  unfold bind, try_except, ret, lift, emit, call,
    result_of, world_of, trace_of in *.

Ltac split_inner x :=
  lazymatch x with
  | context [match ?y with _ => _ end] => split_inner y
  | _ => destruct x eqn:?
  end.

Ltac split_match :=
  match goal with
  | |- context [match ?x with _ => _ end] => split_inner x
  end.

Ltac run :=
  unfold_monad; cbn [fst snd app];
  repeat (split_match; cbn [fst snd app] in *; try discriminate).

Ltac eqb_facts :=
  repeat match goal with
  | H : String.eqb _ _ = true |- _ => apply String.eqb_eq in H
  | H : String.eqb _ _ = false |- _ => apply String.eqb_neq in H
  end.

(** ** Traces *)

Lemma submitted_app (t1 t2 : list event) :
  submitted (t1 ++ t2) = submitted t1 ++ submitted t2.
Proof.
  induction t1 as [| ev t1 IH]; [reflexivity |].
  destruct ev; cbn; rewrite ?IH; reflexivity.
Qed.

Lemma closed_app (t1 t2 : list event) :
  closed (t1 ++ t2) = closed t1 ++ closed t2.
Proof.
  induction t1 as [| ev t1 IH]; [reflexivity |].
  destruct ev; cbn; rewrite ?IH; reflexivity.
Qed.

Lemma bar_windows_app (t1 t2 : list event) :
  bar_windows (t1 ++ t2) = bar_windows t1 ++ bar_windows t2.
Proof.
  induction t1 as [| ev t1 IH]; [reflexivity |].
  destruct ev; cbn; rewrite ?IH; reflexivity.
Qed.

Lemma submitted_nil (P : event -> bool) (t : list event) :
  (forall ev, P ev = true -> is_submit ev = false) ->
  forallb P t = true -> submitted t = [].
Proof.
  intros HP. induction t as [| ev t IH]; cbn; [reflexivity |].
  intros H. apply andb_prop in H as [Hev Ht].
  specialize (HP ev Hev). destruct ev; try discriminate; auto.
Qed.

Lemma closed_nil (P : event -> bool) (t : list event) :
  (forall ev, P ev = true -> is_close ev = false) ->
  forallb P t = true -> closed t = [].
Proof.
  intros HP. induction t as [| ev t IH]; cbn; [reflexivity |].
  intros H. apply andb_prop in H as [Hev Ht].
  specialize (HP ev Hev). destruct ev; try discriminate; auto.
Qed.

Lemma market_data_not_submit ev : market_data_event ev = true -> is_submit ev = false.
Proof. destruct ev; cbn; congruence. Qed.

Lemma market_data_not_close ev : market_data_event ev = true -> is_close ev = false.
Proof. destruct ev; cbn; congruence. Qed.

Lemma passive_submitted (t : list event) :
  forallb passive_event t = true -> submitted t = [].
Proof. apply submitted_nil. intros ev; destruct ev; cbn; congruence. Qed.

Lemma passive_closed (t : list event) :
  forallb passive_event t = true -> closed t = [].
Proof. apply closed_nil. intros ev; destruct ev; cbn; congruence. Qed.

Lemma market_data_passive (t : list event) :
  forallb market_data_event t = true -> forallb passive_event t = true.
Proof.
  rewrite !forallb_forall. intros H ev Hin. specialize (H ev Hin).
  destruct ev; cbn in *; congruence.
Qed.

Lemma market_data_no_positions (t : list event) :
  forallb market_data_event t = true -> ~ In EvListPositions t.
Proof.
  intros H Hin. rewrite forallb_forall in H.
  specialize (H _ Hin). discriminate.
Qed.

(** ** Which events a computation can emit *)

Section Emits.

Context {World : Type} (env : Env World) (P : event -> bool).

Lemma emits_ret {A} (a : A) : emits P (ret (World := World) a).
Proof. intros w; reflexivity. Qed.

Lemma emits_lift {A} (r : Res A) : emits P (lift (World := World) r).
Proof. intros w; reflexivity. Qed.

Lemma emits_emit ev : P ev = true -> emits P (emit (World := World) ev).
Proof. intros H w; cbn; rewrite H; reflexivity. Qed.

Lemma emits_log lv m : P (EvLog lv m) = true -> emits P (log (World := World) lv m).
Proof. apply emits_emit. Qed.

Lemma emits_sleep seconds : P (EvSleep seconds) = true -> emits P (sleep env seconds).
Proof. intros H w; cbn; rewrite H; reflexivity. Qed.

Lemma emits_call {A} ev (f : World -> Res A * World) :
  P ev = true -> emits P (call ev f).
Proof.
  intros H w; unfold call, trace_of. destruct (f w) as [r w1]; cbn.
  rewrite H; reflexivity.
Qed.

Lemma emits_bind {A B} (m : M World A) (f : A -> M World B) :
  emits P m -> (forall a, emits P (f a)) -> emits P (bind m f).
Proof.
  intros Hm Hf w. specialize (Hm w). unfold bind, trace_of in *.
  destruct (m w) as [[[a | e] w1] t1]; cbn in *; [| assumption].
  specialize (Hf a w1). unfold trace_of in Hf.
  destruct (f a w1) as [[r w2] t2]; cbn in *.
  rewrite forallb_app, Hm, Hf; reflexivity.
Qed.

Lemma emits_try {A} (m : M World A) (h : exn -> M World A) :
  emits P m -> (forall e, emits P (h e)) -> emits P (try_except m h).
Proof.
  intros Hm Hh w. specialize (Hm w). unfold try_except, trace_of in *.
  destruct (m w) as [[[a | e] w1] t1]; cbn in *; [assumption |].
  specialize (Hh e w1). unfold trace_of in Hh.
  destruct (h e w1) as [[r w2] t2]; cbn in *.
  rewrite forallb_app, Hm, Hh; reflexivity.
Qed.

End Emits.

(** A [try] whose body starts with a step that returns. *)
Lemma try_bind_ok {World A B : Type} (m : M World A) (f : A -> M World B)
      (h : exn -> M World B) (w w1 : World) (a : A) (t1 : list event) :
  m w = (Ok a, w1, t1) ->
  try_except (bind m f) h w
  = let '(r, w2, t2) := try_except (f a) h w1 in (r, w2, t1 ++ t2).
Proof.
  intros Hm. unfold try_except, bind. rewrite Hm.
  destruct (f a w1) as [[[b | e] w2] t2]; [reflexivity |].
  destruct (h e w2) as [[r w3] t3]. rewrite app_assoc. reflexivity.
Qed.

Create HintDb emits.

Ltac emits_side := solve [reflexivity | auto with emits].

Ltac emits_step :=
  first
    [ apply emits_ret
    | apply emits_lift
    | apply emits_log; emits_side
    | apply emits_sleep; emits_side
    | apply emits_emit; emits_side
    | apply emits_call; emits_side
    | apply emits_bind; [| intros ?]
    | apply emits_try; [| intros ?]
    | match goal with
      | |- emits _ (match ?x with _ => _ end) => destruct x
      | |- emits _ (let _ := _ in _) => cbv zeta
      end ].

Ltac emits_auto := repeat emits_step; eauto.

Section Orders.

Context {World : Type} (env : Env World).

(** C9: with a side other than ['buy'] [place_order] submits nothing and
    returns [False]; with side ['buy'] and no quote for the symbol it
    submits nothing and returns [False]. *)
Theorem place_order_no_order_without_buy_and_quote :
  forall (symbol : string) (buying_power : float) (side : string) (w : World),
    side <> "buy" \/ latest_quote env symbol w = None ->
    result_of (place_order env symbol buying_power side w) = Ok false
    /\ submitted (trace_of (place_order env symbol buying_power side w)) = []
    /\ closed (trace_of (place_order env symbol buying_power side w)) = [].
Proof.
  intros symbol buying_power side w H.
  unfold place_order, latest_quote in *.
  run; cbn; auto; eqb_facts;
    destruct H as [H | H]; solve [contradiction | discriminate].
Qed.

(** C4: [close_position] returns [True] when the exchange closes the
    position and also when it answers 404 "position does not exist"; on
    every other failure it returns [False].  It never raises. *)
Theorem close_position_missing_is_success :
  forall (symbol : string) (w : World),
    (forall w', api_close_position env symbol w = (Ok tt, w') ->
       result_of (close_position env symbol w) = Ok true)
    /\ (forall msg w',
          api_close_position env symbol w = (Raise (APIError (Some 404%Z) msg), w') ->
          str_in "position does not exist" (lower msg) = true ->
          result_of (close_position env symbol w) = Ok true)
    /\ (forall e w',
          api_close_position env symbol w = (Raise e, w') ->
          (forall msg, e = APIError (Some 404%Z) msg ->
                       str_in "position does not exist" (lower msg) = false) ->
          result_of (close_position env symbol w) = Ok false).
Proof.
  intros symbol w; unfold close_position; repeat split.
  - intros w' H. unfold_monad. rewrite H. reflexivity.
  - intros msg w' H Hin. unfold_monad. rewrite H. cbn.
    rewrite Hin. reflexivity.
  - intros e w' H Hother. unfold_monad. rewrite H.
    destruct e as [[c |] msg | c msg]; cbn; try reflexivity.
    destruct (Z.eqb c 404) eqn:Hc; cbn; [| reflexivity].
    apply Z.eqb_eq in Hc; subst c.
    rewrite (Hother msg eq_refl). reflexivity.
Qed.

End Orders.

(** ** The phases of a cycle *)

Section Cycle.

Context {World : Type} (env : Env World).
Variables (symbol : string) (start_date end_date : Z).

Lemma fetch_15min_data_emits :
  emits market_data_event (fetch_15min_data env symbol start_date end_date).
Proof. unfold fetch_15min_data. emits_auto. Qed.

Lemma calculate_kdj_emits data :
  emits market_data_event (calculate_kdj env data).
Proof. unfold calculate_kdj. emits_auto. Qed.

Lemma poll_fetch_emits :
  emits market_data_event (poll_fetch env symbol start_date end_date).
Proof.
  unfold poll_fetch. emits_auto.
Qed.

Lemma poll_latest_emits kdj : emits market_data_event (poll_latest env kdj).
Proof. unfold poll_latest. emits_auto. Qed.

(** The position query never raises: any failure leaves the tracked
    position at [None]. *)
Lemma poll_position_run (w : World) :
  exists current_position t,
    poll_position env symbol w
    = (Ok current_position, snd (api_list_positions env w), EvListPositions :: t)
    /\ forallb passive_event t = true
    /\ (forall e, fst (api_list_positions env w) = Raise e -> current_position = None).
Proof.
  unfold poll_position. unfold_monad.
  destruct (api_list_positions env w) as [[positions | e] w1]; cbn.
  - eexists _, _; repeat split. intros e H; discriminate.
  - destruct e as [status_code msg | c msg]; cbn.
    + destruct (negb (status_is status_code 404)); cbn;
        eexists _, _; repeat split.
    + eexists _, _; repeat split.
Qed.

Lemma poll_decide_submitted buying_power latest_kdj current_position (w : World) :
  submitted (trace_of (poll_decide env symbol buying_power latest_kdj current_position w))
  = if (k_below_20 latest_kdj && is_none current_position)%bool
    then match latest_quote env symbol w with
         | Some _ => [buy_order symbol buying_power]
         | None => []
         end
    else [].
Proof.
  unfold poll_decide, place_order, close_position, k_below_20, latest_quote, buy_order.
  run; reflexivity.
Qed.

Lemma poll_decide_closed buying_power latest_kdj current_position (w : World) :
  closed (trace_of (poll_decide env symbol buying_power latest_kdj current_position w))
  = if (k_above_80 latest_kdj && negb (is_none current_position))%bool
    then [symbol]
    else [].
Proof.
  unfold poll_decide, place_order, close_position, k_above_80.
  run; try reflexivity;
    destruct current_position; cbn in *;
    rewrite ?andb_false_r, ?andb_true_r in *; congruence.
Qed.

Lemma empty_or_short (kdj : DataFrame) :
  (empty kdj || Nat.ltb (len kdj) 1)%bool = empty kdj.
Proof.
  unfold empty, len. destruct (rows kdj); cbn;
    rewrite ?orb_true_r, ?orb_false_r; reflexivity.
Qed.

Lemma empty_false_len (kdj : DataFrame) :
  empty kdj = false <-> columns kdj <> [] /\ 1 <= len kdj.
Proof.
  unfold empty, len.
  destruct (columns kdj), (rows kdj); cbn; split;
    try discriminate; try tauto; try (intros [? ?]; lia).
  intros _; split; [discriminate | lia].
Qed.

Lemma iloc_neg_ok (kdj : DataFrame) (k : nat) :
  1 <= k <= len kdj -> exists r, iloc_neg kdj k = Ok (mkRow (columns kdj) r).
Proof.
  intros Hk. unfold iloc_neg, len in *.
  destruct (nth_error (rev (rows kdj)) (k - 1)) as [r |] eqn:E.
  - exists r; reflexivity.
  - apply nth_error_None in E. rewrite length_rev in E. lia.
Qed.

(** The gate of line 242: an empty frame ends the cycle with a warning and
    a minute's sleep; any other frame passes, with its last row. *)
Lemma poll_latest_run (kdj : DataFrame) (w : World) :
  (empty kdj = true ->
     poll_latest env kdj w
     = (Ok None, time_sleep env 60 w, [EvLog WARNING MsgKdjInsufficient; EvSleep 60]))
  /\ (empty kdj = false ->
        exists latest_kdj prev_kdj,
          poll_latest env kdj w = (Ok (Some (latest_kdj, prev_kdj)), w, [])
          /\ (prev_kdj = None <-> len kdj = 1)).
Proof.
  unfold poll_latest. rewrite empty_or_short. split; intros He; rewrite He.
  - reflexivity.
  - apply empty_false_len in He as [_ Hlen].
    destruct (iloc_neg_ok kdj 1) as [r1 H1]; [lia |].
    unfold_monad. rewrite H1. cbn [fst snd app].
    destruct (Nat.leb 2 (len kdj)) eqn:E2.
    + apply Nat.leb_le in E2.
      destruct (iloc_neg_ok kdj 2) as [r2 H2]; [lia |].
      rewrite H2. cbn [fst snd app].
      eexists _, _; split; [reflexivity |].
      split; [discriminate | lia].
    + apply Nat.leb_gt in E2. cbn [fst snd app].
      eexists _, _; split; [reflexivity |].
      split; [lia | reflexivity].
Qed.

(** The buying power a cycle carries is the one it read first. *)
Lemma poll_fetch_buying_power (w w1 : World) buying_power kdj t1 :
  poll_fetch env symbol start_date end_date w = (Ok (Some (buying_power, kdj)), w1, t1) ->
  exists account w0,
    api_get_account env w = (Ok account, w0)
    /\ py_float env (acc_buying_power account) = Ok buying_power.
Proof.
  unfold poll_fetch. unfold bind at 1. unfold call.
  destruct (api_get_account env w) as [[account | e] w0]; [| discriminate].
  unfold bind at 1. unfold lift at 1.
  destruct (py_float env (acc_buying_power account)) as [bp | e] eqn:Hbp;
    [| discriminate].
  intros H. exists account, w0. split; [reflexivity |].
  rewrite Hbp. revert H. unfold bind at 1. unfold log at 1, emit at 1.
  unfold bind at 1.
  destruct (fetch_15min_data env symbol start_date end_date w0)
    as [[[[data |] | e] w2] t2].
  - destruct (empty data).
    + cbn. discriminate.
    + unfold bind at 1.
      destruct (calculate_kdj env _ w2) as [[[k | e] w3] t3]; cbn;
        intros H; inversion H; reflexivity.
  - cbn. discriminate.
  - discriminate.
Qed.

(** The trace of a cycle: what it does before deciding, what the decision
    does, and what the handler of the loop adds. *)
Lemma poll_cycle_trace (w : World) :
  exists t0 t1,
    trace_of (poll_cycle env symbol start_date end_date w)
    = t0 ++ match decision_point env symbol start_date end_date w with
            | Some (buying_power, latest_kdj, current_position, w3) =>
                trace_of (poll_decide env symbol buying_power latest_kdj
                                      current_position w3)
            | None => []
            end ++ t1
    /\ forallb passive_event t0 = true
    /\ forallb passive_event t1 = true.
Proof.
  unfold poll_cycle, poll_cycle_body, decision_point, indicator_point.
  unfold try_except, bind, trace_of.
  pose proof (poll_fetch_emits w) as Hf. unfold trace_of in Hf.
  destruct (poll_fetch env symbol start_date end_date w)
    as [[[[[buying_power kdj] |] | e] w1] t1]; cbn [fst snd app ret lift emit log sleep] in *;
    apply market_data_passive in Hf.
  2: { exists t1, []; rewrite !app_nil_r; auto. }
  2: { exists t1; eexists; cbn [fst snd app ret lift emit log sleep]; split; [reflexivity | auto]. }
  pose proof (poll_latest_emits kdj w1) as Hl. unfold trace_of in Hl.
  destruct (poll_latest env kdj w1)
    as [[[[[latest_kdj prev_kdj] |] | e] w2] t2]; cbn [fst snd app ret lift emit log sleep] in *;
    apply market_data_passive in Hl.
  2: { exists (t1 ++ t2), []; rewrite !app_nil_r, forallb_app, Hf, Hl; auto. }
  2: { exists (t1 ++ t2); eexists; cbn [fst snd app ret lift emit log sleep].
       split; [reflexivity | rewrite forallb_app, Hf, Hl; auto]. }
  destruct (poll_position_run w2) as (current_position & t3 & Hp & Ht3 & _).
  rewrite Hp.
  destruct (poll_decide env symbol buying_power latest_kdj current_position
                        (snd (api_list_positions env w2)))
    as [[[[] | e] w4] t4]; cbn [fst snd app ret lift emit log sleep].
  - exists (t1 ++ t2 ++ EvListPositions :: t3), [].
    rewrite !app_nil_r, <- !app_assoc. cbn [fst snd app ret lift emit log sleep].
    split; [reflexivity | split; [| reflexivity]].
    rewrite !forallb_app, Hf, Hl. cbn. exact Ht3.
  - exists (t1 ++ t2 ++ EvListPositions :: t3); eexists.
    repeat (rewrite <- ?app_assoc; cbn [fst snd app ret lift emit log sleep]).
    split; [reflexivity | split; [| reflexivity]].
    rewrite !forallb_app, Hf, Hl. cbn. exact Ht3.
Qed.

Lemma poll_cycle_submitted (w : World) :
  submitted (trace_of (poll_cycle env symbol start_date end_date w))
  = match decision_point env symbol start_date end_date w with
    | Some (buying_power, latest_kdj, current_position, w3) =>
        submitted (trace_of (poll_decide env symbol buying_power latest_kdj
                                         current_position w3))
    | None => []
    end.
Proof.
  destruct (poll_cycle_trace w) as (t0 & t1 & -> & H0 & H1).
  rewrite !submitted_app, (passive_submitted _ H0), (passive_submitted _ H1).
  rewrite app_nil_r. cbn.
  destruct (decision_point env symbol start_date end_date w)
    as [[[[? ?] ?] ?] |]; reflexivity.
Qed.

Lemma poll_cycle_closed (w : World) :
  closed (trace_of (poll_cycle env symbol start_date end_date w))
  = match decision_point env symbol start_date end_date w with
    | Some (buying_power, latest_kdj, current_position, w3) =>
        closed (trace_of (poll_decide env symbol buying_power latest_kdj
                                      current_position w3))
    | None => []
    end.
Proof.
  destruct (poll_cycle_trace w) as (t0 & t1 & -> & H0 & H1).
  rewrite !closed_app, (passive_closed _ H0), (passive_closed _ H1).
  rewrite app_nil_r. cbn.
  destruct (decision_point env symbol start_date end_date w)
    as [[[[? ?] ?] ?] |]; reflexivity.
Qed.

Lemma decision_point_inv (w w3 : World) buying_power latest_kdj current_position :
  decision_point env symbol start_date end_date w
  = Some (buying_power, latest_kdj, current_position, w3) ->
  exists w2,
    indicator_point env symbol start_date end_date w
    = Some (buying_power, latest_kdj, w2)
    /\ w3 = snd (api_list_positions env w2)
    /\ (forall e, fst (api_list_positions env w2) = Raise e ->
                  current_position = None).
Proof.
  unfold decision_point.
  destruct (indicator_point env symbol start_date end_date w)
    as [[[bp latest] w2] |]; [| discriminate].
  destruct (poll_position_run w2) as (pos & t & Hp & _ & Hfail).
  rewrite Hp. intros H; inversion H; subst.
  exists w2; auto.
Qed.

Lemma indicator_point_inv (w w2 : World) buying_power latest_kdj :
  indicator_point env symbol start_date end_date w
  = Some (buying_power, latest_kdj, w2) ->
  exists kdj t1,
    poll_fetch env symbol start_date end_date w
    = (Ok (Some (buying_power, kdj)), w2, t1)
    /\ empty kdj = false.
Proof.
  unfold indicator_point.
  destruct (poll_fetch env symbol start_date end_date w)
    as [[[[[bp kdj] |] | e] w1] t1]; try discriminate.
  destruct (poll_latest_run kdj w1) as [Hempty Hfull].
  destruct (empty kdj) eqn:He.
  - rewrite (Hempty eq_refl). discriminate.
  - destruct (Hfull eq_refl) as (latest & prev & Hl & _). rewrite Hl.
    intros H; inversion H; subst. eauto.
Qed.

Lemma indicator_point_decides (w w2 : World) buying_power latest_kdj :
  indicator_point env symbol start_date end_date w
  = Some (buying_power, latest_kdj, w2) ->
  exists current_position,
    decision_point env symbol start_date end_date w
    = Some (buying_power, latest_kdj, current_position,
            snd (api_list_positions env w2))
    /\ (forall e, fst (api_list_positions env w2) = Raise e ->
                  current_position = None).
Proof.
  intros H. unfold decision_point. rewrite H.
  destruct (poll_position_run w2) as (pos & t & Hp & _ & Hfail).
  rewrite Hp. eauto.
Qed.

(** C1, as the program has it: a cycle submits an order exactly when it
    reaches its decision with K < 20, a tracked position of [None] and a
    quote for the symbol; it is then the one market buy order whose notional
    is the buying power, and that buying power is the one the cycle read
    from the account at its start. *)
Theorem poll_cycle_buys_on_signal_with_quote :
  forall w : World,
    submitted (trace_of (poll_cycle env symbol start_date end_date w))
    = match decision_point env symbol start_date end_date w with
      | Some (buying_power, latest_kdj, current_position, w3) =>
          if (k_below_20 latest_kdj && is_none current_position)%bool
          then match latest_quote env symbol w3 with
               | Some _ => [buy_order symbol buying_power]
               | None => []
               end
          else []
      | None => []
      end
    /\ (forall buying_power latest_kdj current_position w3,
          decision_point env symbol start_date end_date w
          = Some (buying_power, latest_kdj, current_position, w3) ->
          exists account w0,
            api_get_account env w = (Ok account, w0)
            /\ py_float env (acc_buying_power account) = Ok buying_power).
Proof.
  intros w. split.
  - rewrite poll_cycle_submitted.
    destruct (decision_point env symbol start_date end_date w)
      as [[[[bp latest] pos] w3] |]; [| reflexivity].
    apply poll_decide_submitted.
  - intros bp latest pos w3 H.
    apply decision_point_inv in H as (w2 & H & _).
    apply indicator_point_inv in H as (kdj & t1 & H & _).
    eapply poll_fetch_buying_power; eassumption.
Qed.

(** C2, as the program has it: when listing the positions fails, with a 404
    or with anything else, the tracked position is [None]; the cycle sends
    no close, and it buys exactly when K < 20 and there is a quote. *)
Theorem poll_cycle_position_failure_is_no_position :
  forall (w w2 w3 : World) buying_power latest_kdj e,
    indicator_point env symbol start_date end_date w
    = Some (buying_power, latest_kdj, w2) ->
    api_list_positions env w2 = (Raise e, w3) ->
    decision_point env symbol start_date end_date w
    = Some (buying_power, latest_kdj, None, w3)
    /\ closed (trace_of (poll_cycle env symbol start_date end_date w)) = []
    /\ submitted (trace_of (poll_cycle env symbol start_date end_date w))
       = if k_below_20 latest_kdj
         then match latest_quote env symbol w3 with
              | Some _ => [buy_order symbol buying_power]
              | None => []
              end
         else [].
Proof.
  intros w w2 w3 bp latest e Hi Hl.
  destruct (indicator_point_decides _ _ _ _ Hi) as (pos & Hd & Hfail).
  rewrite Hl in Hd, Hfail. cbn [fst snd] in Hd, Hfail.
  rewrite (Hfail e eq_refl) in Hd.
  split; [exact Hd |]. split.
  - rewrite poll_cycle_closed, Hd, poll_decide_closed.
    cbn. rewrite andb_false_r. reflexivity.
  - rewrite poll_cycle_submitted, Hd, poll_decide_submitted.
    cbn. rewrite andb_true_r. reflexivity.
Qed.

(** C3: a cycle sends no close when its tracked position is absent and no
    buy when it is present; a cycle that does not reach its decision sends
    neither. *)
Theorem poll_cycle_orders_match_position :
  forall w : World,
    match decision_point env symbol start_date end_date w with
    | Some (_, _, None, _) =>
        closed (trace_of (poll_cycle env symbol start_date end_date w)) = []
    | Some (_, _, Some _, _) =>
        submitted (trace_of (poll_cycle env symbol start_date end_date w)) = []
    | None =>
        closed (trace_of (poll_cycle env symbol start_date end_date w)) = []
        /\ submitted (trace_of (poll_cycle env symbol start_date end_date w)) = []
    end.
Proof.
  intros w. rewrite poll_cycle_closed, poll_cycle_submitted.
  destruct (decision_point env symbol start_date end_date w)
    as [[[[bp latest] [p |]] w3] |].
  - rewrite poll_decide_submitted. cbn. rewrite andb_false_r. reflexivity.
  - rewrite poll_decide_closed. cbn. rewrite andb_false_r. reflexivity.
  - split; reflexivity.
Qed.

(** C5, as the program has it: a cycle that has computed the indicator
    goes on to the position query exactly when the frame is not empty, for
    which one row is enough; on an empty frame it logs, sleeps 60 seconds
    and ends. *)
Theorem poll_cycle_needs_one_indicator_row :
  forall (w w1 : World) buying_power kdj t1,
    poll_fetch env symbol start_date end_date w
    = (Ok (Some (buying_power, kdj)), w1, t1) ->
    (In EvListPositions (trace_of (poll_cycle env symbol start_date end_date w))
     <-> columns kdj <> [] /\ 1 <= len kdj)
    /\ (empty kdj = true ->
        poll_cycle env symbol start_date end_date w
        = (Ok tt, time_sleep env 60 w1,
           t1 ++ [EvLog WARNING MsgKdjInsufficient; EvSleep 60])).
Proof.
  intros w w1 bp kdj t1 Hf.
  pose proof (poll_fetch_emits w) as Ht1. rewrite Hf in Ht1.
  unfold trace_of in Ht1. cbn [snd] in Ht1.
  apply market_data_no_positions in Ht1.
  rewrite <- empty_false_len.
  unfold poll_cycle, poll_cycle_body.
  rewrite (try_bind_ok _ _ _ _ _ _ _ Hf). cbv beta iota.
  destruct (poll_latest_run kdj w1) as [Hempty Hfull].
  destruct (empty kdj) eqn:He.
  - rewrite (try_bind_ok _ _ _ _ _ _ _ (Hempty eq_refl)). cbv beta iota.
    unfold try_except, ret, trace_of. cbn [fst snd app].
    split; [| reflexivity].
    split; [| discriminate].
    intros Hin. apply in_app_or in Hin as [Hin | Hin]; [contradiction |].
    cbn in Hin. intuition discriminate.
  - destruct (Hfull eq_refl) as (latest & prev & Hl & _).
    rewrite (try_bind_ok _ _ _ _ _ _ _ Hl). cbv beta iota.
    destruct (poll_position_run w1) as (pos & t3 & Hp & _).
    rewrite (try_bind_ok _ _ _ _ _ _ _ Hp).
    destruct (try_except _ _ _) as [[r w4] t4].
    unfold trace_of. cbn [fst snd app].
    split; [| discriminate].
    split; [reflexivity | intros _].
    apply in_or_app; right; left; reflexivity.
Qed.

End Cycle.

(** ** The cycle on the scripted exchange *)

Lemma place_order_no_order_without_buy_and_quote_witness :
  (result_of (place_order (Demo.env Demo.buy_script) Demo.eth 1000 "sell" 0%Z) = Ok false
   /\ submitted (trace_of (place_order (Demo.env Demo.buy_script) Demo.eth 1000 "sell" 0%Z)) = []
   /\ closed (trace_of (place_order (Demo.env Demo.buy_script) Demo.eth 1000 "sell" 0%Z)) = [])
  /\ (result_of (place_order (Demo.env Demo.no_quote_script) Demo.eth 1000 "buy" 0%Z) = Ok false
      /\ submitted (trace_of (place_order (Demo.env Demo.no_quote_script) Demo.eth 1000 "buy" 0%Z)) = []
      /\ closed (trace_of (place_order (Demo.env Demo.no_quote_script) Demo.eth 1000 "buy" 0%Z)) = []).
Proof.
  split.
  - apply place_order_no_order_without_buy_and_quote. left. discriminate.
  - apply place_order_no_order_without_buy_and_quote. right. reflexivity.
Defined.

Lemma close_position_missing_is_success_witness :
  result_of (close_position (Demo.env (Demo.sell_script (Ok tt))) Demo.eth 0%Z) = Ok true
  /\ result_of (close_position
                  (Demo.env (Demo.sell_script
                               (Raise (APIError (Some 404%Z) "Position does not exist"))))
                  Demo.eth 0%Z) = Ok true
  /\ result_of (close_position
                  (Demo.env (Demo.sell_script
                               (Raise (APIError (Some 403%Z) "forbidden"))))
                  Demo.eth 0%Z) = Ok false.
Proof.
  split; [| split].
  - apply (proj1 (close_position_missing_is_success
                    (Demo.env (Demo.sell_script (Ok tt))) Demo.eth 0%Z) 0%Z).
    reflexivity.
  - apply (proj1 (proj2 (close_position_missing_is_success
                           (Demo.env (Demo.sell_script
                              (Raise (APIError (Some 404%Z) "Position does not exist"))))
                           Demo.eth 0%Z))
                 "Position does not exist" 0%Z); reflexivity.
  - apply (proj2 (proj2 (close_position_missing_is_success
                           (Demo.env (Demo.sell_script
                              (Raise (APIError (Some 403%Z) "forbidden"))))
                           Demo.eth 0%Z))
                 (APIError (Some 403%Z) "forbidden") 0%Z); [reflexivity |].
    intros msg H; discriminate H.
Defined.

(** With 1000.00 of buying power, K = 15, no position and a quote, one
    market buy order of notional 1000.00 is submitted. *)
Lemma poll_cycle_buys_on_signal_with_quote_witness :
  submitted (trace_of (poll_cycle (Demo.env Demo.buy_script) Demo.eth 0%Z 30%Z 0%Z))
  = [buy_order Demo.eth 1000]
  /\ exists account w0,
       api_get_account (Demo.env Demo.buy_script) 0%Z = (Ok account, w0)
       /\ py_float (Demo.env Demo.buy_script) (acc_buying_power account) = Ok 1000%float.
Proof.
  destruct (poll_cycle_buys_on_signal_with_quote
              (Demo.env Demo.buy_script) Demo.eth 0%Z 30%Z 0%Z) as [Hs Hbp].
  split.
  - rewrite Hs. reflexivity.
  - apply (Hbp 1000%float (Demo.row1 15) None 0%Z). reflexivity.
Defined.

(** C1 as stated fails: K = 15 and no position, but the exchange has no
    quote for the symbol, and the cycle submits nothing. *)
Lemma buys_on_signal_alone_fails :
  ~ buys_on_signal_alone (Demo.env Demo.no_quote_script) Demo.eth 0%Z 30%Z 0%Z.
Proof.
  intros H.
  specialize (H 1000%float (Demo.row1 15) 0%Z eq_refl eq_refl).
  vm_compute in H. discriminate H.
Qed.

Lemma poll_cycle_position_failure_is_no_position_witness :
  decision_point (Demo.env Demo.positions_down_script) Demo.eth 0%Z 30%Z 0%Z
  = Some (1000%float, Demo.row1 15, None, 0%Z)
  /\ closed (trace_of (poll_cycle (Demo.env Demo.positions_down_script)
                                  Demo.eth 0%Z 30%Z 0%Z)) = []
  /\ submitted (trace_of (poll_cycle (Demo.env Demo.positions_down_script)
                                     Demo.eth 0%Z 30%Z 0%Z))
     = [buy_order Demo.eth 1000].
Proof.
  apply (poll_cycle_position_failure_is_no_position
           (Demo.env Demo.positions_down_script) Demo.eth 0%Z 30%Z
           0%Z 0%Z 0%Z 1000%float (Demo.row1 15)
           (APIError (Some 500%Z) "internal server error"));
    reflexivity.
Defined.

(** C2 as stated fails: listing the positions fails with a 500, K = 15, and
    the cycle buys. *)
Lemma holds_when_position_unknown_fails :
  ~ holds_when_position_unknown (Demo.env Demo.positions_down_script)
      Demo.eth 0%Z 30%Z 0%Z.
Proof.
  intros H.
  destruct (H 1000%float (Demo.row1 15) 0%Z (Some 500%Z) "internal server error" 0%Z
              eq_refl eq_refl) as [Hs _]; [discriminate |].
  vm_compute in Hs. discriminate Hs.
Qed.

Lemma poll_cycle_needs_one_indicator_row_witness :
  In EvListPositions
     (trace_of (poll_cycle (Demo.env Demo.buy_script) Demo.eth 0%Z 30%Z 0%Z))
  <-> columns (mkDF ["K_9"; "D_9"; "J_9"] [[15; 30; 10]%float]) <> []
      /\ 1 <= len (mkDF ["K_9"; "D_9"; "J_9"] [[15; 30; 10]%float]).
Proof.
  refine (proj1 (poll_cycle_needs_one_indicator_row
                   (Demo.env Demo.buy_script) Demo.eth 0%Z 30%Z
                   0%Z 0%Z 1000%float
                   (mkDF ["K_9"; "D_9"; "J_9"] [[15; 30; 10]%float]) _ eq_refl)).
Defined.

(** C5 as stated fails: the indicator frame has one row and the cycle goes
    on to the position query. *)
Lemma proceeds_only_with_two_points_fails :
  ~ proceeds_only_with_two_points (Demo.env Demo.buy_script) Demo.eth 0%Z 30%Z 0%Z.
Proof.
  intros H.
  assert (Hlen : 2 <= len (mkDF ["K_9"; "D_9"; "J_9"] [[15; 30; 10]%float])).
  { eapply (H 1000%float _ 0%Z _ eq_refl).
    vm_compute. do 5 right. left. reflexivity. }
  cbn in Hlen. lia.
Qed.

(** K = 85 and an open position: one close for the symbol, no order. *)
Example poll_cycle_closes_on_high_k :
  closed (trace_of (poll_cycle (Demo.env (Demo.sell_script (Ok tt)))
                               Demo.eth 0%Z 30%Z 0%Z)) = [Demo.eth]
  /\ submitted (trace_of (poll_cycle (Demo.env (Demo.sell_script (Ok tt)))
                                     Demo.eth 0%Z 30%Z 0%Z)) = [].
Proof. split; reflexivity. Qed.

(** K = 50: no order and no close, with or without a position, and the
    cycle logs its K, D, J before the wait. *)
Example poll_cycle_holds_on_middle_k :
  trace_of (poll_cycle (Demo.env (Demo.hold_script [])) Demo.eth 0%Z 30%Z 0%Z)
  = [EvGetAccount; EvLog INFO (MsgBuyingPower 1000);
     EvGetCryptoBars Demo.eth "15Min" (fst (window 0 30)) (snd (window 0 30));
     EvLog INFO MsgBarsTail; EvLog INFO MsgKdjTail; EvListPositions;
     EvLog INFO (MsgHold Demo.eth 50 30 10 None);
     EvLog INFO MsgWaiting; EvSleep 900]
  /\ trace_of (poll_cycle (Demo.env (Demo.hold_script [mkPosition Demo.eth "0.5"]))
                          Demo.eth 0%Z 30%Z 0%Z)
     = [EvGetAccount; EvLog INFO (MsgBuyingPower 1000);
        EvGetCryptoBars Demo.eth "15Min" (fst (window 0 30)) (snd (window 0 30));
        EvLog INFO MsgBarsTail; EvLog INFO MsgKdjTail; EvListPositions;
        EvLog INFO (MsgHold Demo.eth 50 30 10 (Some "0.5"));
        EvLog INFO MsgWaiting; EvSleep 900].
Proof. split; reflexivity. Qed.

(** ** The window of the bar requests *)

Lemma datetime_eqb_eq (a b : datetime) : datetime_eqb a b = true <-> a = b.
Proof.
  destruct a as [d1 t1 z1], b as [d2 t2 z2]. unfold datetime_eqb; cbn.
  rewrite !andb_true_iff, Z.eqb_eq, String.eqb_eq.
  split.
  - intros [[-> Ht] ->]. destruct t1, t2; try discriminate; reflexivity.
  - intros H; inversion H; subst. destruct t2; auto.
Qed.

Lemma in_window_bars (symbol timeframe : string) (start_date end_date : Z) :
  in_window start_date end_date
            (EvGetCryptoBars symbol timeframe
               (mkDT start_date TimeMin "America/New_York")
               (mkDT end_date TimeMax "America/New_York")) = true.
Proof.
  cbn. rewrite andb_true_iff. split; apply datetime_eqb_eq; reflexivity.
Qed.

#[local] Hint Resolve in_window_bars : emits.

Lemma in_window_bar_windows (start_date end_date : Z) (t : list event) :
  forallb (in_window start_date end_date) t = true ->
  Forall (fun win => win = window start_date end_date) (bar_windows t).
Proof.
  induction t as [| ev t IH]; cbn; [constructor |].
  intros H. apply andb_prop in H as [Hev Ht].
  destruct ev; auto.
  constructor; [| auto].
  cbn in Hev. apply andb_prop in Hev as [Hs He].
  apply datetime_eqb_eq in Hs, He. subst. reflexivity.
Qed.

Section Loop.

Context {World : Type} (env : Env World).

Lemma poll_cycle_in_window (symbol : string) (start_date end_date : Z) :
  emits (in_window start_date end_date)
        (poll_cycle env symbol start_date end_date).
Proof.
  unfold poll_cycle, poll_cycle_body, poll_fetch, poll_latest, poll_position,
    poll_decide, fetch_15min_data, calculate_kdj, place_order, close_position.
  emits_auto.
Qed.

Lemma poll_loop_in_window (n : nat) (symbol : string) (start_date end_date : Z) :
  emits (in_window start_date end_date)
        (poll_loop env n symbol start_date end_date).
Proof.
  induction n as [| n IH]; cbn [poll_loop].
  - apply emits_ret.
  - apply emits_bind; [apply poll_cycle_in_window | intros _; exact IH].
Qed.

(** An iteration never raises: the loop goes on. *)
Lemma poll_cycle_returns (symbol : string) (start_date end_date : Z) (w : World) :
  result_of (poll_cycle env symbol start_date end_date w) = Ok tt.
Proof.
  unfold poll_cycle, try_except, result_of.
  destruct (poll_cycle_body env symbol start_date end_date w)
    as [[[[] | e] w1] t1]; reflexivity.
Qed.

Lemma poll_loop_returns (n : nat) (symbol : string) (start_date end_date : Z) (w : World) :
  result_of (poll_loop env n symbol start_date end_date w) = Ok tt.
Proof.
  revert w. induction n as [| n IH]; intros w; cbn [poll_loop]; [reflexivity |].
  unfold bind, result_of.
  pose proof (poll_cycle_returns symbol start_date end_date w) as Hc.
  unfold result_of in Hc.
  destruct (poll_cycle env symbol start_date end_date w) as [[r w1] t1].
  cbn in Hc; subst r.
  specialize (IH w1). unfold result_of in IH.
  destruct (poll_loop env n symbol start_date end_date w1) as [[r w2] t2].
  cbn in *. exact IH.
Qed.

(** C10: the window is read from the clock once, before the loop: in any
    number of iterations every bar request carries the window of the day
    the process started, 30 days back from it, whatever the clock has
    become; and the iterations all run. *)
Theorem main_window_fixed_at_start :
  forall (n : nat) (w : World),
    Forall (fun win => win = window (today env w - 30) (today env w))
           (bar_windows (trace_of (main env n w)))
    /\ result_of (main env n w) = Ok tt.
Proof.
  intros n w. unfold main, bind, trace_of, result_of. cbn [fst snd app].
  pose proof (poll_loop_in_window n main_symbol (today env w - 30) (today env w) w) as Ht.
  pose proof (poll_loop_returns n main_symbol (today env w - 30) (today env w) w) as Hr.
  unfold trace_of, result_of in *.
  destruct (poll_loop env n main_symbol (today env w - 30) (today env w) w)
    as [[r w1] t1].
  cbn in *. split; [apply in_window_bar_windows; exact Ht | exact Hr].
Qed.

End Loop.

(** 200 iterations on the scripted exchange: the clock moves from day 0 to
    day 2, and each of the 200 requests still asks for days -30 to 0. *)
Example main_window_two_days_later :
  today (Demo.env Demo.buy_script) (world_of (main (Demo.env Demo.buy_script) 200 0%Z)) = 2%Z
  /\ bar_windows (trace_of (main (Demo.env Demo.buy_script) 200 0%Z))
     = repeat (window (-30) 0) 200.
Proof. vm_compute. split; reflexivity. Qed.

(** ** The indicator adapter *)

Lemma mem_In (l : string) (cols : list string) : mem l cols = true <-> In l cols.
Proof.
  unfold mem. rewrite existsb_exists. split.
  - intros (c & Hin & Heq). apply String.eqb_eq in Heq. subst; exact Hin.
  - intros Hin. exists l. split; [exact Hin | apply String.eqb_refl].
Qed.

Lemma positions_from_nil (i : nat) (l : string) (cols : list string) :
  positions_from i l cols = [] <-> mem l cols = false.
Proof.
  revert i. induction cols as [| c r IH]; intros i; cbn; [tauto |].
  destruct (String.eqb l c); cbn; [| apply IH].
  split; discriminate.
Qed.

Lemma positions_from_NoDup (i : nat) (l : string) (cols : list string) :
  NoDup cols -> mem l cols = true -> exists j, positions_from i l cols = [j].
Proof.
  revert i. induction cols as [| c r IH]; intros i Hnd Hmem; [discriminate |].
  inversion Hnd as [| c' r' Hnotin Hnd']; subst.
  cbn in *. destruct (String.eqb l c) eqn:E.
  - apply String.eqb_eq in E; subst c. exists i. f_equal.
    apply positions_from_nil.
    destruct (mem l r) eqn:Hm; [| reflexivity].
    apply mem_In in Hm. contradiction.
  - cbn in Hmem. apply IH; assumption.
Qed.

Lemma find_absent_None (cols ls : list string) :
  find (fun l => negb (mem l cols)) ls = None <-> forall l, In l ls -> mem l cols = true.
Proof.
  split.
  - intros H l Hin. pose proof (find_none _ _ H l Hin) as Hn.
    cbn in Hn. apply negb_false_iff in Hn. exact Hn.
  - intros H. induction ls as [| l r IH]; [reflexivity |].
    cbn. rewrite (H l (or_introl eq_refl)). cbn.
    apply IH. intros l' Hin. apply H. right; exact Hin.
Qed.

(** The labels of [df[[l1, ..., ln]]] are the requested ones, and they are
    the list itself when no label of the frame repeats. *)
Lemma getitem_labels_columns (df r : DataFrame) (ls : list string) :
  getitem_labels df ls = Ok r ->
  (forall c, In c (columns r) <-> In c ls)
  /\ len r = len df
  /\ (NoDup (columns df) -> columns r = ls).
Proof.
  unfold getitem_labels.
  destruct (find (fun l => negb (mem l (columns df))) ls) eqn:Hfind; [discriminate |].
  intros H; inversion H; subst r; clear H. cbn [columns rows len].
  rewrite find_absent_None in Hfind.
  split; [| split].
  - intros c. rewrite in_map_iff. split.
    + intros ([l i] & Hc & Hin). cbn in Hc; subst l.
      apply in_flat_map in Hin as (l & Hl & Hin).
      apply in_map_iff in Hin as (j & Heq & _). inversion Heq; subst. exact Hl.
    + intros Hin. specialize (Hfind c Hin).
      destruct (positions c (columns df)) as [| j ps] eqn:Hps.
      * apply positions_from_nil in Hps. congruence.
      * exists (c, j). split; [reflexivity |].
        apply in_flat_map. exists c. split; [exact Hin |].
        rewrite Hps. left; reflexivity.
  - unfold len; cbn. apply length_map.
  - intros Hnd. induction ls as [| l ls IH]; [reflexivity |].
    cbn [flat_map]. rewrite map_app.
    destruct (positions_from_NoDup 0 l (columns df) Hnd (Hfind l (or_introl eq_refl)))
      as [j Hj].
    unfold positions at 1. rewrite Hj. cbn. f_equal.
    apply IH. intros l' Hin. apply Hfind. right; exact Hin.
Qed.

Lemma mem_rename (df : DataFrame) (mapping : list (string * string)) (c c' : string) :
  mem c (columns df) = true -> assoc c mapping = Some c' ->
  mem c' (columns (rename df mapping)) = true.
Proof.
  intros Hmem Hassoc. apply mem_In. apply mem_In in Hmem.
  unfold rename; cbn. apply in_map_iff. exists c. rewrite Hassoc. auto.
Qed.

Section Indicator.

Context {World : Type} (env : Env World).

(** What [calculate_kdj] returns, by the outcome of the library call. *)
Lemma calculate_kdj_run (data : DataFrame) (w : World) :
  exists r t,
    calculate_kdj env data w = (Ok r, w, t)
    /\ match kdj_call env data with
       | Ok (Some kdj_result) =>
           if has_expected_columns kdj_result
           then getitem_labels (rename kdj_result kdj_mapping) ["K_9"; "D_9"; "J_9"]
                = Ok r
           else r = pd_DataFrame
       | _ => r = pd_DataFrame
       end.
Proof.
  unfold calculate_kdj, has_expected_columns, kdj_mapping. unfold_monad.
  destruct (kdj_call env data) as [[kdj_result |] | e]; cbn [fst snd app].
  - destruct (mem expected_k_col (columns kdj_result)) eqn:Hk; cbn [andb];
      [| eexists _, _; split; reflexivity].
    destruct (mem expected_d_col (columns kdj_result)) eqn:Hd; cbn [andb];
      [| eexists _, _; split; reflexivity].
    destruct (mem expected_j_col (columns kdj_result)) eqn:Hj; cbn [andb];
      [| eexists _, _; split; reflexivity].
    destruct (getitem_labels _ _) as [r | e] eqn:Hsel; cbn [fst snd app].
    + eexists _, _; split; reflexivity.
    + exfalso. unfold getitem_labels in Hsel.
      destruct (find _ _) eqn:Hfind; [| discriminate].
      assert (Hnone : find (fun l => negb (mem l (columns
                 (rename kdj_result
                    [(expected_k_col, "K_9"); (expected_d_col, "D_9");
                     (expected_j_col, "J_9")])))) ["K_9"; "D_9"; "J_9"] = None).
      { apply find_absent_None. intros l [<- | [<- | [<- | []]]].
        - eapply mem_rename; [exact Hk | reflexivity].
        - eapply mem_rename; [exact Hd | reflexivity].
        - eapply mem_rename; [exact Hj | reflexivity]. }
      congruence.
  - eexists _, _; split; reflexivity.
  - eexists _, _; split; reflexivity.
Qed.

End Indicator.


(** ** The stream listener *)

Lemma auth_first_app (auth : json) (t1 t2 : list event) :
  auth_first auth t1 -> auth_first auth t2 -> auth_first auth (t1 ++ t2).
Proof.
  intros H1 H2. induction H1; cbn.
  - exact H2.
  - apply auth_first_pair. exact IHauth_first.
  - apply auth_first_other; assumption.
Qed.

Lemma auth_first_before_subscribe (auth : json) (t : list event) :
  auth_first auth t ->
  action_of (EvWsSend auth) <> Some "subscribe" ->
  forall pre ev post,
    t = pre ++ ev :: post ->
    action_of ev = Some "subscribe" ->
    exists pre', pre = pre' ++ [EvWsSend auth].
Proof.
  intros Ht Hauth. induction Ht as [| ev0 t Ht IH | ev0 t Hev0 Ht IH];
    intros pre ev post Heq Hsub.
  - destruct pre; discriminate.
  - destruct pre as [| p0 [| p1 pre]]; cbn in Heq; inversion Heq; subst.
    + contradiction.
    + exists []; reflexivity.
    + destruct (IH pre ev post eq_refl Hsub) as [pre' ->].
      eexists (_ :: _ :: pre'). cbn. reflexivity.
  - destruct pre as [| p0 pre]; cbn in Heq; inversion Heq; subst.
    + contradiction.
    + destruct (IH pre ev post eq_refl Hsub) as [pre' ->].
      eexists (_ :: pre'). cbn. reflexivity.
Qed.

Ltac auth_first_list :=
  repeat first
    [ apply auth_first_nil
    | apply auth_first_pair
    | apply auth_first_other; [cbn; discriminate |] ].

Section Listener.

Context {World : Type} (env : Env World).
Variables (api_key secret_key symbol : string).

Lemma auth_first_bind {A B} (m : M World A) (f : A -> M World B) :
  (forall w, auth_first (auth_msg api_key secret_key) (trace_of (m w))) ->
  (forall a w, auth_first (auth_msg api_key secret_key) (trace_of (f a w))) ->
  forall w, auth_first (auth_msg api_key secret_key) (trace_of (bind m f w)).
Proof.
  intros Hm Hf w. specialize (Hm w). unfold bind, trace_of in *.
  destruct (m w) as [[[a | e] w1] t1]; cbn in *; [| exact Hm].
  specialize (Hf a w1). unfold trace_of in Hf.
  destruct (f a w1) as [[r w2] t2]; cbn in *.
  apply auth_first_app; assumption.
Qed.

Lemma on_open_auth_first (w : World) :
  auth_first (auth_msg api_key secret_key)
             (trace_of (on_open env api_key secret_key symbol w)).
Proof. unfold on_open. run; auth_first_list. Qed.

Lemma on_message_auth_first (message : string) (w : World) :
  auth_first (auth_msg api_key secret_key)
             (trace_of (on_message env api_key secret_key symbol message w)).
Proof. unfold on_message, on_message_body. run; auth_first_list. Qed.

Lemma run_callback_auth_first (m : M World unit) :
  (forall w, auth_first (auth_msg api_key secret_key) (trace_of (m w))) ->
  forall w, auth_first (auth_msg api_key secret_key)
                       (trace_of (run_callback m w)).
Proof.
  intros Hm w. specialize (Hm w). unfold run_callback, try_except, trace_of in *.
  destruct (m w) as [[[[] | e] w1] t1]; cbn in *; [exact Hm |].
  apply auth_first_app; [exact Hm | auth_first_list].
Qed.

Lemma run_forever_auth_first (script : list callback) (w : World) :
  auth_first (auth_msg api_key secret_key)
             (trace_of (run_forever env api_key secret_key symbol script w)).
Proof.
  revert w. induction script as [| cb rest IH]; intros w; [apply auth_first_nil |].
  destruct cb; cbn [run_forever].
  - apply auth_first_bind; [| intros _; exact IH].
    apply run_callback_auth_first, on_open_auth_first.
  - apply auth_first_bind; [| intros _; exact IH].
    apply run_callback_auth_first, on_message_auth_first.
  - apply auth_first_bind; [| intros _; exact IH].
    apply run_callback_auth_first. intros w'. cbn. auth_first_list.
  - apply run_callback_auth_first. intros w'.
    unfold on_close, asyncio_run_nested. run; auth_first_list.
Qed.

(** C7, as the program has it: whatever the transport delivers, the
    listener sends a subscribe request only right after it has sent the
    credentials; it does not wait for a message in between. *)
Theorem subscribe_only_right_after_auth :
  forall (script : list callback) (w : World) pre ev post,
    trace_of (websocket_stream env api_key secret_key symbol script w)
    = pre ++ ev :: post ->
    action_of ev = Some "subscribe" ->
    exists pre', pre = pre' ++ [EvWsSend (auth_msg api_key secret_key)].
Proof.
  intros script w pre ev post Heq Hsub.
  eapply auth_first_before_subscribe; [| cbn; discriminate | exact Heq | exact Hsub].
  unfold websocket_stream.
  apply auth_first_bind; [intros w'; cbn; auth_first_list | intros _].
  apply run_forever_auth_first.
Qed.

Lemma on_message_emits (message : string) :
  emits handler_event (on_message env api_key secret_key symbol message).
Proof. unfold on_message, on_message_body, send. emits_auto. Qed.

(** C8: [on_message] returns for every message and never raises; an
    exception of its body is logged as an error; it only logs and sends,
    so it neither sleeps nor starts a new connection; and the listener
    goes on with the callbacks that follow. *)
Theorem on_message_never_raises :
  forall (message : string) (w : World),
    result_of (on_message env api_key secret_key symbol message w) = Ok tt
    /\ (forall e w1 t1,
          on_message_body env api_key secret_key symbol message w = (Raise e, w1, t1) ->
          on_message env api_key secret_key symbol message w
          = (Ok tt, w1, t1 ++ [EvLog ERROR (MsgWsHandlerError (str_exn e))]))
    /\ forallb handler_event
               (trace_of (on_message env api_key secret_key symbol message w)) = true
    /\ (forall rest,
          run_forever env api_key secret_key symbol (CbMessage message :: rest) w
          = let '(_, w1, t1) := on_message env api_key secret_key symbol message w in
            let '(r, w2, t2) := run_forever env api_key secret_key symbol rest w1 in
            (r, w2, t1 ++ t2)).
Proof.
  intros message w. split; [| split; [| split]].
  - unfold on_message, try_except, result_of.
    destruct (on_message_body env api_key secret_key symbol message w)
      as [[[[] | e] w1] t1]; reflexivity.
  - intros e w1 t1 H. unfold on_message, try_except. rewrite H. reflexivity.
  - apply on_message_emits.
  - intros rest. cbn [run_forever]. unfold bind, run_callback, try_except at 1.
    unfold on_message at 1 2, try_except.
    destruct (on_message_body env api_key secret_key symbol message w)
      as [[[[] | e] w1] t1]; cbn [log emit]; reflexivity.
Qed.

End Listener.

Lemma subscribe_only_right_after_auth_witness :
  exists pre',
    [EvWsRunForever ws_url 30 10; EvLog INFO MsgWsOpen;
     EvWsSend (auth_msg "key" "secret")]
    = pre' ++ [EvWsSend (auth_msg "key" "secret")].
Proof.
  apply (subscribe_only_right_after_auth
           (Demo.env Demo.buy_script) "key" "secret" Demo.eth [CbOpen] 0%Z
           _ (EvWsSend (subscribe_msg Demo.eth)) []);
    reflexivity.
Defined.

(** C7 as stated fails: on the opening of the connection alone, with no
    message received, the subscribe request is sent. *)
Lemma subscribes_only_after_message_fails :
  ~ subscribes_only_after_message (Demo.env Demo.buy_script) "key" "secret"
      Demo.eth [CbOpen] 0%Z.
Proof.
  intros H.
  destruct (H [EvWsRunForever ws_url 30 10; EvLog INFO MsgWsOpen;
               EvWsSend (auth_msg "key" "secret")]
              (EvWsSend (subscribe_msg Demo.eth)) [] eq_refl eq_refl)
    as [message [Hin | []]].
  discriminate Hin.
Qed.

Lemma on_message_never_raises_witness :
  on_message (Demo.env Demo.buy_script) "key" "secret" Demo.eth "zz" 0%Z
  = (Ok tt, 0%Z, [EvLog ERROR (MsgWsHandlerError "Expecting value")]).
Proof.
  apply (proj1 (proj2 (on_message_never_raises
                         (Demo.env Demo.buy_script) "key" "secret" Demo.eth "zz" 0%Z))
               (PyExc "JSONDecodeError" "Expecting value") 0%Z []).
  reflexivity.
Defined.

(** ** Start-up *)

Section StartupProperties.

Context {Config : Type} (host : Host Config).

Lemma check_keys_run (config : Config) (keys : list string) :
  check_keys host config keys
  = match find (fun key => negb (config_has_option host config "alpaca" key)) keys with
    | Some key => ([SvLog CRITICAL (MsgKeyMissing key)], Raise (key_missing key))
    | None => ([], Ok tt)
    end.
Proof.
  induction keys as [| key rest IH]; [reflexivity |].
  cbn [check_keys find].
  destruct (negb (config_has_option host config "alpaca" key)); [reflexivity | exact IH].
Qed.

Lemma find_missing_None (config : Config) (keys : list string) :
  find (fun key => negb (config_has_option host config "alpaca" key)) keys = None
  <-> forall key, In key keys -> config_has_option host config "alpaca" key = true.
Proof.
  split.
  - intros H key Hin. pose proof (find_none _ _ H key Hin) as Hn.
    cbn in Hn. apply negb_false_iff in Hn. exact Hn.
  - intros H. induction keys as [| key rest IH]; [reflexivity |].
    cbn. rewrite (H key (or_introl eq_refl)). cbn.
    apply IH. intros k Hin. apply H. right; exact Hin.
Qed.

(** [load_config] returns the three values exactly when the file exists,
    the parser reads it, the section [alpaca] is there with the three keys,
    and the three lookups return; the values are those of the lookups. *)
Theorem load_config_returns_iff :
  forall api_key secret_key base_url : string,
    snd (load_config host) = Ok (api_key, secret_key, base_url)
    <-> os_path_exists host "config.ini" = true
        /\ exists config,
             config_read host "config.ini" = Ok config
             /\ config_contains host config "alpaca" = true
             /\ (forall key, In key required_keys ->
                             config_has_option host config "alpaca" key = true)
             /\ config_get host config "alpaca" "api_key" = Ok api_key
             /\ config_get host config "alpaca" "secret_key" = Ok secret_key
             /\ config_get host config "alpaca" "base_url" = Ok base_url.
Proof.
  intros api_key secret_key base_url. unfold load_config.
  cbn [s_bind s_do s_log s_raise s_ret app].
  destruct (os_path_exists host "config.ini"); cbn [negb].
  2: { cbn. split; [discriminate | intros [H _]; discriminate]. }
  destruct (config_read host "config.ini") as [config | e]; cbn [s_bind app].
  2: { cbn. split; [discriminate | intros (_ & c & H & _); discriminate]. }
  destruct (config_contains host config "alpaca") eqn:Hsec; cbn [negb].
  2: { cbn. split; [discriminate |].
       intros (_ & c & H & Hc & _). inversion H; subst. congruence. }
  rewrite check_keys_run.
  destruct (find _ required_keys) as [key |] eqn:Hfind.
  { cbn. split; [discriminate |].
    intros (_ & c & H & _ & Hkeys & _). inversion H; subst c.
    apply (proj2 (find_missing_None config required_keys)) in Hkeys.
    congruence. }
  rewrite find_missing_None in Hfind.
  cbn [s_bind app].
  destruct (config_get host config "alpaca" "api_key") as [k |] eqn:Hk;
    cbn [s_bind app].
  2: { cbn. split; [discriminate |].
       intros (_ & c & H & _ & _ & Hg & _). inversion H; subst c. congruence. }
  destruct (config_get host config "alpaca" "secret_key") as [s |] eqn:Hs;
    cbn [s_bind app].
  2: { cbn. split; [discriminate |].
       intros (_ & c & H & _ & _ & _ & Hg & _). inversion H; subst c. congruence. }
  destruct (config_get host config "alpaca" "base_url") as [u |] eqn:Hu;
    cbn [s_bind s_ret app snd].
  2: { split; [discriminate |].
       intros (_ & c & H & _ & _ & _ & _ & Hg). inversion H; subst c. congruence. }
  split.
  - intros H; inversion H; subst. split; [reflexivity |].
    exists config. repeat split; auto.
  - intros (_ & c & H & _ & _ & Hk' & Hs' & Hu'). inversion H; subst c.
    congruence.
Qed.

(** The failures of [load_config], in the order it checks: a missing file
    is reported without reading anything; then a missing section; then the
    first missing key in the order api_key, secret_key, base_url. *)
Theorem load_config_first_failure :
  (os_path_exists host "config.ini" = false ->
   load_config host
   = ([SvPathExists "config.ini"; SvLog CRITICAL (MsgConfigNotFound "config.ini")],
      Raise file_not_found))
  /\ (forall config,
        os_path_exists host "config.ini" = true ->
        config_read host "config.ini" = Ok config ->
        config_contains host config "alpaca" = false ->
        load_config host
        = ([SvPathExists "config.ini"; SvConfigRead "config.ini";
            SvLog CRITICAL MsgSectionMissing],
           Raise section_missing))
  /\ (forall config key,
        os_path_exists host "config.ini" = true ->
        config_read host "config.ini" = Ok config ->
        config_contains host config "alpaca" = true ->
        find (fun key => negb (config_has_option host config "alpaca" key))
             required_keys = Some key ->
        load_config host
        = ([SvPathExists "config.ini"; SvConfigRead "config.ini";
            SvLog CRITICAL (MsgKeyMissing key)],
           Raise (key_missing key))).
Proof.
  unfold load_config. cbn [s_bind s_do s_log s_raise s_ret app].
  split; [| split].
  - intros ->. reflexivity.
  - intros config -> -> ->. reflexivity.
  - intros config key -> -> -> Hfind. cbn [negb s_bind app].
    rewrite check_keys_run, Hfind. reflexivity.
Qed.

Lemma load_config_before_credentials :
  forallb before_credentials (fst (load_config host)) = true.
Proof.
  unfold load_config. cbn [s_bind s_do s_log s_raise s_ret app].
  destruct (os_path_exists host "config.ini"); [| reflexivity].
  cbn [negb].
  destruct (config_read host "config.ini") as [config | e]; [| reflexivity].
  cbn [s_bind app].
  destruct (config_contains host config "alpaca"); [| reflexivity].
  cbn [negb]. rewrite check_keys_run.
  destruct (find _ required_keys); [reflexivity |].
  cbn [s_bind app].
  destruct (config_get host config "alpaca" "api_key"); [| reflexivity].
  destruct (config_get host config "alpaca" "secret_key"); [| reflexivity].
  destruct (config_get host config "alpaca" "base_url"); reflexivity.
Qed.

(** When [load_config] raises, the REST client is not created and the
    listener thread is not started; its own three errors end the process with
    [exit(1)].  The process is ready for the loop only with the credentials
    [load_config] returned, the client created and the thread started. *)
Theorem startup_needs_config :
  (forall e,
     snd (load_config host) = Raise e ->
     forallb before_credentials (fst (startup host)) = true
     /\ (snd (startup host) = Exit 1 \/ snd (startup host) = Uncaught e)
     /\ (e = file_not_found \/ e = section_missing \/ (exists key, e = key_missing key) ->
         snd (startup host) = Exit 1))
  /\ (forall api_key secret_key base_url,
        snd (startup host) = Ready api_key secret_key base_url ->
        snd (load_config host) = Ok (api_key, secret_key, base_url)
        /\ rest_create host api_key secret_key base_url "v2" = Ok tt
        /\ thread_start host = Ok tt
        /\ In SvThreadStart (fst (startup host))).
Proof.
  pose proof load_config_before_credentials as Hquiet.
  unfold startup. destruct (load_config host) as [t [[[k s] u] | e0]];
    cbn [fst snd] in *.
  - split; [intros e H; discriminate |].
    intros api_key secret_key base_url.
    destruct (rest_create host k s u "v2") as [[] |] eqn:Hrest; [| discriminate].
    destruct (thread_start host) as [[] |] eqn:Hthread; cbn [snd fst];
      [| discriminate].
    intros H; inversion H; subst.
    split; [reflexivity | split; [exact Hrest | split; [reflexivity |]]].
    apply in_or_app. right. right. left. reflexivity.
  - split.
    + intros e H. inversion H; subst e0. split; [| split].
      * destruct (is_config_failure host e); cbn [fst]; [| exact Hquiet].
        rewrite forallb_app, Hquiet. reflexivity.
      * destruct (is_config_failure host e); cbn [snd]; auto.
      * intros H0.
        assert (Hown : is_config_failure host e = true).
        { destruct H0 as [-> | [-> | [key ->]]]; cbn;
            rewrite ?orb_true_r; reflexivity. }
        rewrite Hown. reflexivity.
    + intros api_key secret_key base_url.
      destruct (is_config_failure host e0); discriminate.
Qed.

End StartupProperties.

Lemma load_config_returns_iff_witness :
  snd (load_config (DemoHost.host (Some DemoHost.good)))
  = Ok ("k", "s", "https://paper-api.alpaca.markets").
Proof.
  apply (proj2 (load_config_returns_iff (DemoHost.host (Some DemoHost.good))
                  "k" "s" "https://paper-api.alpaca.markets")).
  split; [reflexivity |].
  exists DemoHost.good. repeat split.
  intros key [<- | [<- | [<- | []]]]; reflexivity.
Defined.

Lemma load_config_first_failure_witness :
  load_config (DemoHost.host None)
  = ([SvPathExists "config.ini"; SvLog CRITICAL (MsgConfigNotFound "config.ini")],
     Raise file_not_found)
  /\ load_config (DemoHost.host (Some []))
     = ([SvPathExists "config.ini"; SvConfigRead "config.ini";
         SvLog CRITICAL MsgSectionMissing],
        Raise section_missing)
  /\ load_config (DemoHost.host (Some DemoHost.no_keys))
     = ([SvPathExists "config.ini"; SvConfigRead "config.ini";
         SvLog CRITICAL (MsgKeyMissing "api_key")],
        Raise (key_missing "api_key")).
Proof.
  split; [| split].
  - apply (proj1 (load_config_first_failure (DemoHost.host None))). reflexivity.
  - apply (proj1 (proj2 (load_config_first_failure (DemoHost.host (Some []))))
                 []); reflexivity.
  - apply (proj2 (proj2 (load_config_first_failure
                           (DemoHost.host (Some DemoHost.no_keys))))
                 DemoHost.no_keys "api_key"); reflexivity.
Defined.

Lemma startup_needs_config_witness :
  snd (startup (DemoHost.host None)) = Exit 1
  /\ snd (load_config (DemoHost.host (Some DemoHost.good)))
     = Ok ("k", "s", "https://paper-api.alpaca.markets").
Proof.
  split.
  - apply (proj1 (startup_needs_config (DemoHost.host None)) file_not_found).
    + reflexivity.
    + left. reflexivity.
  - apply (proj2 (startup_needs_config (DemoHost.host (Some DemoHost.good)))
                 "k" "s" "https://paper-api.alpaca.markets").
    reflexivity.
Defined.

(** ** The order functions, the bars and the positions *)

Lemma lower_app (a b : string) : lower (a ++ b) = (lower a ++ lower b)%string.
Proof. induction a as [| c a IH]; cbn; [reflexivity | rewrite IH; reflexivity]. Qed.

Lemma prefix_app (n post : string) : String.prefix n (n ++ post) = true.
Proof.
  induction n as [| c n IH]; cbn; [destruct post; reflexivity |].
  destruct (ascii_dec c c) as [_ | Hne]; [exact IH | contradiction].
Qed.

Lemma str_in_prefix (n hay : string) : String.prefix n hay = true -> str_in n hay = true.
Proof. intros H. destruct hay; cbn [str_in]; rewrite H; reflexivity. Qed.

Lemma str_in_app (n pre post : string) : str_in n (pre ++ n ++ post) = true.
Proof.
  induction pre as [| c pre IH].
  - cbn [String.append]. apply str_in_prefix, prefix_app.
  - cbn [String.append str_in]. rewrite IH. apply orb_true_r.
Qed.

Section Functions.

Context {World : Type} (env : Env World).

(** [fetch_15min_data] never raises.  It asks the client once, for
    15-minute bars of the symbol from the start of [start_date] to the end of
    [end_date], New York time.  It returns the client's frame, unchanged,
    when there is one, it is not empty and its index converts to New York
    time; it returns [None] when the client raises, when the frame is empty
    and when the conversion of the index raises. *)
Theorem fetch_15min_data_one_request :
  forall (symbol : string) (start_date end_date : Z) (w : World),
    result_of (fetch_15min_data env symbol start_date end_date w)
    = Ok match fst (api_get_crypto_bars env symbol "15Min"
                      (fst (window start_date end_date))
                      (snd (window start_date end_date)) w) with
         | Ok bars =>
             if empty bars then None
             else match index_tz_convert env bars "America/New_York" with
                  | Ok _ => Some bars
                  | Raise _ => None
                  end
         | Raise _ => None
         end
    /\ world_of (fetch_15min_data env symbol start_date end_date w)
       = snd (api_get_crypto_bars env symbol "15Min"
                (fst (window start_date end_date))
                (snd (window start_date end_date)) w)
    /\ bar_windows (trace_of (fetch_15min_data env symbol start_date end_date w))
       = [window start_date end_date]
    /\ forallb market_data_event
               (trace_of (fetch_15min_data env symbol start_date end_date w)) = true.
Proof.
  intros symbol start_date end_date w.
  unfold fetch_15min_data, window. cbn [fst snd]. unfold_monad.
  destruct (api_get_crypto_bars env symbol "15Min" _ _ w) as [[bars | e] w1];
    cbn [fst snd app].
  - destruct (empty bars); cbn [fst snd app]; [cbn; repeat split |].
    destruct (index_tz_convert env bars "America/New_York") as [[] | e];
      cbn; repeat split.
  - cbn; repeat split.
Qed.

(** [place_order] never raises.  With side ['buy'] and a quote for the
    symbol it submits one order, the market buy of the given notional, and
    returns whether [submit_order] returned. *)
Theorem place_order_buy_submits_once :
  forall (symbol : string) (buying_power : float) (w : World),
    (forall side, exists b,
        result_of (place_order env symbol buying_power side w) = Ok b)
    /\ (forall q,
          latest_quote env symbol w = Some q ->
          submitted (trace_of (place_order env symbol buying_power "buy" w))
          = [buy_order symbol buying_power]
          /\ closed (trace_of (place_order env symbol buying_power "buy" w)) = []
          /\ result_of (place_order env symbol buying_power "buy" w)
             = Ok match fst (api_submit_order env (buy_order symbol buying_power)
                               (snd (api_get_latest_crypto_quotes env [symbol] w))) with
                  | Ok _ => true
                  | Raise _ => false
                  end).
Proof.
  intros symbol buying_power w. split.
  - intros side. unfold place_order. run; eexists; reflexivity.
  - intros q. unfold place_order, latest_quote, buy_order. unfold_monad.
    destruct (api_get_latest_crypto_quotes env [symbol] w) as [[quotes | e] w1];
      cbn [fst snd app]; [| discriminate].
    destruct (assoc symbol quotes) as [[q' |] |]; try discriminate.
    intros _. cbn [String.eqb Ascii.eqb Bool.eqb].
    destruct (api_submit_order env _ w1) as [[[] | e] w2]; cbn; repeat split.
Qed.

(** [close_position] never raises and never submits an order; it asks the
    client once to close the position of the symbol, whatever comes back. *)
Theorem close_position_one_close :
  forall (symbol : string) (w : World),
    closed (trace_of (close_position env symbol w)) = [symbol]
    /\ submitted (trace_of (close_position env symbol w)) = []
    /\ world_of (close_position env symbol w) = snd (api_close_position env symbol w)
    /\ exists b, result_of (close_position env symbol w) = Ok b.
Proof.
  intros symbol w. unfold close_position.
  run; cbn; repeat split; eexists; reflexivity.
Qed.

(** The 404 of [close_position] is matched whatever the case of the
    message and wherever the words stand in it. *)
Theorem close_position_message_any_case :
  forall (symbol : string) (w w' : World) (pre words post : string),
    lower words = "position does not exist" ->
    api_close_position env symbol w
    = (Raise (APIError (Some 404%Z) (pre ++ words ++ post)), w') ->
    close_position env symbol w
    = (Ok true, w', [EvClosePosition symbol; EvLog INFO (MsgCloseNoPosition symbol)]).
Proof.
  intros symbol w w' pre words post Hwords Hcall.
  unfold close_position. unfold_monad. rewrite Hcall. cbn [fst snd app str_exn status_is].
  rewrite !lower_app, Hwords, str_in_app. reflexivity.
Qed.

(** [poll_position] never raises.  When the client lists the positions the
    tracked position is the first one of the symbol, or [None] when there is
    none; when the client raises it is [None], silently on a 404 and with one
    warning otherwise. *)
Theorem poll_position_first_match :
  forall (symbol : string) (w : World),
    (forall positions w1,
        api_list_positions env w = (Ok positions, w1) ->
        exists current_position,
          poll_position env symbol w = (Ok current_position, w1, [EvListPositions])
          /\ match current_position with
             | Some p =>
                 exists before after,
                   positions = before ++ p :: after
                   /\ pos_symbol p = symbol
                   /\ forall p', In p' before -> pos_symbol p' <> symbol
             | None => forall p', In p' positions -> pos_symbol p' <> symbol
             end)
    /\ (forall msg w1,
          api_list_positions env w = (Raise (APIError (Some 404%Z) msg), w1) ->
          poll_position env symbol w = (Ok None, w1, [EvListPositions]))
    /\ (forall e w1,
          api_list_positions env w = (Raise e, w1) ->
          (forall msg, e <> APIError (Some 404%Z) msg) ->
          exists warning,
            poll_position env symbol w
            = (Ok None, w1, [EvListPositions; EvLog WARNING warning])).
Proof.
  intros symbol w. unfold poll_position. unfold_monad. split; [| split].
  - intros positions w1 ->. cbn [fst snd app].
    eexists. split; [reflexivity |].
    induction positions as [| p0 positions IH]; cbn [find].
    + intros p' [].
    + destruct (String.eqb (pos_symbol p0) symbol) eqn:E.
      * apply String.eqb_eq in E. exists [], positions.
        repeat split; auto.
      * apply String.eqb_neq in E.
        destruct (find _ positions) as [p |].
        -- destruct IH as (before & after & -> & Hp & Hbefore).
           exists (p0 :: before), after. repeat split; auto.
           intros p' [<- | Hin]; auto.
        -- intros p' [<- | Hin]; auto.
  - intros msg w1 ->. reflexivity.
  - intros e w1 -> Hnot.
    destruct e as [[c |] msg | c msg]; cbn [fst snd app status_is].
    + destruct (Z.eqb c 404) eqn:Hc.
      * apply Z.eqb_eq in Hc. subst c. exfalso. apply (Hnot msg). reflexivity.
      * cbn. eexists. reflexivity.
    + cbn. eexists. reflexivity.
    + eexists. reflexivity.
Qed.

End Functions.

Lemma place_order_buy_submits_once_witness :
  submitted (trace_of (place_order (Demo.env Demo.buy_script) Demo.eth 1000 "buy" 0%Z))
  = [buy_order Demo.eth 1000]
  /\ closed (trace_of (place_order (Demo.env Demo.buy_script) Demo.eth 1000 "buy" 0%Z)) = []
  /\ result_of (place_order (Demo.env Demo.buy_script) Demo.eth 1000 "buy" 0%Z) = Ok true.
Proof.
  apply (proj2 (place_order_buy_submits_once
                  (Demo.env Demo.buy_script) Demo.eth 1000 0%Z) Demo.quote).
  reflexivity.
Defined.

Lemma close_position_message_any_case_witness :
  close_position
    (Demo.env (Demo.sell_script
                 (Raise (APIError (Some 404%Z) "404: Position Does Not Exist."))))
    Demo.eth 0%Z
  = (Ok true, 0%Z, [EvClosePosition Demo.eth; EvLog INFO (MsgCloseNoPosition Demo.eth)]).
Proof.
  apply (close_position_message_any_case
           (Demo.env (Demo.sell_script
                        (Raise (APIError (Some 404%Z) "404: Position Does Not Exist."))))
           Demo.eth 0%Z 0%Z "404: " "Position Does Not Exist" "."); reflexivity.
Defined.

Lemma poll_position_first_match_witness :
  (exists current_position,
      poll_position (Demo.env (Demo.sell_script (Ok tt))) Demo.eth 0%Z
      = (Ok current_position, 0%Z, [EvListPositions])
      /\ match current_position with
         | Some p =>
             exists before after,
               [mkPosition Demo.eth "0.5"] = before ++ p :: after
               /\ pos_symbol p = Demo.eth
               /\ forall p', In p' before -> pos_symbol p' <> Demo.eth
         | None =>
             forall p', In p' [mkPosition Demo.eth "0.5"] -> pos_symbol p' <> Demo.eth
         end)
  /\ exists warning,
       poll_position (Demo.env Demo.positions_down_script) Demo.eth 0%Z
       = (Ok None, 0%Z, [EvListPositions; EvLog WARNING warning]).
Proof.
  split.
  - apply (proj1 (poll_position_first_match
                    (Demo.env (Demo.sell_script (Ok tt))) Demo.eth 0%Z)
                 [mkPosition Demo.eth "0.5"] 0%Z).
    reflexivity.
  - apply (proj2 (proj2 (poll_position_first_match
                           (Demo.env Demo.positions_down_script) Demo.eth 0%Z))
                 (APIError (Some 500%Z) "internal server error") 0%Z).
    + reflexivity.
    + intros msg H. discriminate H.
Defined.

(** ** One cycle, and the loop *)

Lemma sleeps_app (t1 t2 : list event) : sleeps (t1 ++ t2) = sleeps t1 ++ sleeps t2.
Proof.
  induction t1 as [| ev t1 IH]; [reflexivity |].
  destruct ev; cbn; rewrite ?IH; reflexivity.
Qed.

Lemma accounts_app (t1 t2 : list event) : accounts (t1 ++ t2) = accounts t1 + accounts t2.
Proof.
  induction t1 as [| ev t1 IH]; [reflexivity |].
  destruct ev; cbn; rewrite ?IH; reflexivity.
Qed.

Lemma no_sleep_sleeps (t : list event) : forallb no_sleep t = true -> sleeps t = [].
Proof.
  induction t as [| ev t IH]; [reflexivity |].
  cbn. intros H. apply andb_prop in H as [Hev Ht].
  destruct ev; try discriminate; auto.
Qed.

Lemma no_account_accounts (t : list event) : forallb no_account t = true -> accounts t = 0.
Proof.
  induction t as [| ev t IH]; [reflexivity |].
  cbn. intros H. apply andb_prop in H as [Hev Ht].
  destruct ev; try discriminate; auto.
Qed.

Lemma last_app_cons (t1 t2 : list event) (ev d : event) :
  last (t1 ++ ev :: t2) d = last (ev :: t2) d.
Proof.
  induction t1 as [| ev1 t1 IH]; [reflexivity |].
  cbn [app]. rewrite <- IH. cbn. destruct (t1 ++ ev :: t2) eqn:E; [| reflexivity].
  destruct t1; discriminate.
Qed.

Lemma last_app_nonnil (t1 t2 : list event) (d : event) :
  t2 <> [] -> last (t1 ++ t2) d = last t2 d.
Proof.
  intros H. destruct t2 as [| ev t2]; [contradiction | apply last_app_cons].
Qed.

Lemma last_two (pre : list event) (x y d : event) : last (pre ++ [x; y]) d = y.
Proof. rewrite last_app_cons. reflexivity. Qed.

Lemma try_bind_raise {World A B : Type} (m : M World A) (f : A -> M World B)
      (h : exn -> M World B) (w w1 : World) (e : exn) (t1 : list event) :
  m w = (Raise e, w1, t1) ->
  try_except (bind m f) h w = let '(r, w2, t2) := h e w1 in (r, w2, t1 ++ t2).
Proof. intros Hm. unfold try_except, bind. rewrite Hm. reflexivity. Qed.

(** A [try] whose body starts with a call: the call comes first, and the
    rest is what the continuations and the handler emit. *)
Lemma call_first {World A B C : Type} (P : event -> bool) (ev : event)
      (f0 : World -> Res A * World) (k1 : A -> M World B) (k2 : B -> M World C)
      (h : exn -> M World C) :
  (forall a, emits P (k1 a)) -> (forall b, emits P (k2 b)) ->
  (forall e, emits P (h e)) ->
  forall w, exists t,
    trace_of (try_except (bind (bind (call ev f0) k1) k2) h w) = ev :: t
    /\ forallb P t = true.
Proof.
  intros H1 H2 Hh w. unfold try_except, bind, call, trace_of.
  destruct (f0 w) as [[a | e] w1]; cbn [fst snd app].
  - specialize (H1 a w1). unfold trace_of in H1.
    destruct (k1 a w1) as [[[b | e] w2] t2]; cbn [fst snd app] in *.
    + specialize (H2 b w2). unfold trace_of in H2.
      destruct (k2 b w2) as [[[c | e] w3] t3]; cbn [fst snd app] in *.
      * eexists; split; [reflexivity |]. rewrite forallb_app, H1, H2; reflexivity.
      * specialize (Hh e w3). unfold trace_of in Hh.
        destruct (h e w3) as [[r w4] t4]; cbn [fst snd app] in *.
        eexists; split; [reflexivity |].
        rewrite !forallb_app, H1, H2, Hh; reflexivity.
    + specialize (Hh e w2). unfold trace_of in Hh.
      destruct (h e w2) as [[r w4] t4]; cbn [fst snd app] in *.
      eexists; split; [reflexivity |]. rewrite !forallb_app, H1, Hh; reflexivity.
  - specialize (Hh e w1). unfold trace_of in Hh.
    destruct (h e w1) as [[r w4] t4]; cbn [fst snd app] in *.
    eexists; split; [reflexivity | exact Hh].
Qed.

Section CycleMore.

Context {World : Type} (env : Env World).
Variables (symbol : string) (start_date end_date : Z).

Lemma fetch_15min_data_no_sleep (w : World) :
  forallb no_sleep (trace_of (fetch_15min_data env symbol start_date end_date w)) = true.
Proof. revert w. change (emits no_sleep (fetch_15min_data env symbol start_date end_date)).
  unfold fetch_15min_data. emits_auto. Qed.

Lemma calculate_kdj_no_sleep (data : DataFrame) (w : World) :
  forallb no_sleep (trace_of (calculate_kdj env data w)) = true.
Proof. revert w. change (emits no_sleep (calculate_kdj env data)).
  unfold calculate_kdj. emits_auto. Qed.

Lemma poll_fetch_sleeps (w : World) :
  exists r w1 t,
    poll_fetch env symbol start_date end_date w = (r, w1, t)
    /\ match r with
       | Ok None => sleeps t = [60%Z] /\ last t EvGetAccount = EvSleep 60
       | _ => sleeps t = []
       end.
Proof.
  unfold poll_fetch.
  unfold bind at 1. unfold call.
  destruct (api_get_account env w) as [[account | e] w0];
    [| eexists _, _, _; split; reflexivity].
  unfold bind at 1. unfold lift at 1.
  destruct (py_float env (acc_buying_power account)) as [bp | e];
    [| eexists _, _, _; split; reflexivity].
  unfold bind at 1. unfold log at 1, emit at 1. unfold bind at 1.
  pose proof (fetch_15min_data_no_sleep w0) as Hf.
  destruct (fetch_15min_data env symbol start_date end_date w0)
    as [[[[data |] | e] w2] t2]; cbn [fst snd trace_of] in Hf;
    apply no_sleep_sleeps in Hf.
  - destruct (empty data).
    + cbn [bind log emit sleep ret fst snd app].
      eexists _, _, _; split; [reflexivity |].
      rewrite ?app_nil_r. split.
      * cbn [sleeps]. rewrite sleeps_app, Hf. reflexivity.
      * apply (last_two (EvGetAccount :: EvLog INFO (MsgBuyingPower bp) :: t2)).
    + unfold bind at 1.
      pose proof (calculate_kdj_no_sleep
                    (set_columns data (map lower (columns data))) w2) as Hk.
      destruct (calculate_kdj env _ w2) as [[[k | e] w3] t3];
        cbn [fst snd trace_of ret app] in *; apply no_sleep_sleeps in Hk;
        (eexists _, _, _; split; [reflexivity |]);
        cbn [sleeps]; rewrite ?app_nil_r, !sleeps_app, Hf, Hk; reflexivity.
  - cbn [bind log emit sleep ret fst snd app].
    eexists _, _, _; split; [reflexivity |].
    rewrite ?app_nil_r. split.
    + cbn [sleeps]. rewrite sleeps_app, Hf. reflexivity.
    + apply (last_two (EvGetAccount :: EvLog INFO (MsgBuyingPower bp) :: t2)).
  - eexists _, _, _; split; [reflexivity |].
    cbn [fst snd app sleeps]. rewrite ?app_nil_r. exact Hf.
Qed.

Lemma poll_decide_sleeps buying_power latest_kdj current_position (w : World) :
  exists r w1 t,
    poll_decide env symbol buying_power latest_kdj current_position w = (r, w1, t)
    /\ match r with
       | Ok _ => sleeps t = [900%Z] /\ last t EvGetAccount = EvSleep 900
       | Raise _ => sleeps t = []
       end.
Proof.
  unfold poll_decide, place_order, close_position.
  run; eexists _, _, _; (split; [reflexivity |]); cbn; auto.
Qed.

Lemma poll_position_no_sleep (w : World) :
  forallb no_sleep (trace_of (poll_position env symbol w)) = true.
Proof.
  revert w. change (emits no_sleep (poll_position env symbol)).
  unfold poll_position. emits_auto.
Qed.

(** A cycle sleeps once, as the last thing it does: 900 seconds after a
    decision that ran to its end, 60 seconds in every other case. *)
Lemma poll_cycle_sleeps (w : World) :
  exists seconds,
    (seconds = 60%Z \/ seconds = 900%Z)
    /\ sleeps (trace_of (poll_cycle env symbol start_date end_date w)) = [seconds]
    /\ last (trace_of (poll_cycle env symbol start_date end_date w)) EvGetAccount
       = EvSleep seconds
    /\ (seconds = 900%Z ->
        decision_point env symbol start_date end_date w <> None).
Proof.
  unfold poll_cycle, poll_cycle_body, decision_point, indicator_point.
  destruct (poll_fetch_sleeps w) as (r1 & w1 & t1 & Hf & Hs1). rewrite Hf.
  destruct r1 as [[[bp kdj] |] | e].
  - rewrite (try_bind_ok _ _ _ _ _ _ _ Hf). cbv beta iota.
    destruct (poll_latest_run env kdj w1) as [Hempty Hfull].
    destruct (empty kdj) eqn:He.
    + rewrite (try_bind_ok _ _ _ _ _ _ _ (Hempty eq_refl)), (Hempty eq_refl).
      cbv beta iota. unfold try_except, ret, trace_of. cbn [fst snd app].
      exists 60%Z. split; [auto |]. split; [| split].
      * rewrite sleeps_app, Hs1. reflexivity.
      * apply last_two.
      * discriminate.
    + destruct (Hfull eq_refl) as (latest & prev & Hl & _).
      rewrite (try_bind_ok _ _ _ _ _ _ _ Hl), Hl. cbv beta iota.
      pose proof (poll_position_no_sleep w1) as Hp3.
      destruct (poll_position_run env symbol w1) as (pos & t3 & Hp & _).
      rewrite (try_bind_ok _ _ _ _ _ _ _ Hp), Hp. rewrite Hp in Hp3.
      unfold trace_of in Hp3. cbn [snd] in Hp3. apply no_sleep_sleeps in Hp3.
      destruct (poll_decide_sleeps bp latest pos (snd (api_list_positions env w1)))
        as (r4 & w4 & t4 & Hd & Hs4).
      unfold try_except. rewrite Hd. unfold trace_of.
      destruct r4 as [[] | e]; cbn [fst snd log sleep bind emit].
      * destruct Hs4 as [Hs4 Hlast].
        exists 900%Z. split; [auto |]. split; [| split].
        -- rewrite !sleeps_app, Hs1, Hp3, Hs4. reflexivity.
        -- assert (Hne : t4 <> []) by (intros ->; discriminate).
           rewrite !last_app_nonnil; auto.
           ++ destruct t4; [contradiction | discriminate].
           ++ cbn [app]. destruct t4; [contradiction | discriminate].
        -- discriminate.
      * exists 60%Z. split; [auto |]. split; [| split].
        -- rewrite !sleeps_app, Hs1, Hp3, Hs4. reflexivity.
        -- rewrite !app_assoc. apply last_last.
        -- discriminate.
  - rewrite (try_bind_ok _ _ _ _ _ _ _ Hf). cbv beta iota.
    unfold try_except, ret, trace_of. cbn [fst snd app]. rewrite app_nil_r.
    destruct Hs1 as [Hs1 Hlast].
    exists 60%Z. split; [auto |]. split; [exact Hs1 |]. split; [exact Hlast |].
    discriminate.
  - rewrite (try_bind_raise _ _ _ _ _ _ _ Hf).
    unfold trace_of. cbn [fst snd app log sleep bind emit].
    exists 60%Z. split; [auto |]. split; [| split].
    + rewrite sleeps_app, Hs1. reflexivity.
    + apply last_two.
    + discriminate.
Qed.

Lemma poll_cycle_account_first (w : World) :
  exists t,
    trace_of (poll_cycle env symbol start_date end_date w) = EvGetAccount :: t
    /\ forallb no_account t = true.
Proof.
  unfold poll_cycle, poll_cycle_body, poll_fetch.
  apply call_first.
  - intros account. unfold fetch_15min_data, calculate_kdj. emits_auto.
  - intros fetched. unfold poll_latest, poll_position, poll_decide, place_order,
      close_position. emits_auto.
  - intros e. emits_auto.
Qed.

(** A cycle begins by reading the account and reads it once; it sleeps
    once, as the last thing it does, for 60 or for 900 seconds, and for 900
    only when it reached its decision. *)
Theorem poll_cycle_one_read_one_sleep :
  forall w : World,
    hd_error (trace_of (poll_cycle env symbol start_date end_date w)) = Some EvGetAccount
    /\ accounts (trace_of (poll_cycle env symbol start_date end_date w)) = 1
    /\ exists seconds,
         (seconds = 60%Z \/ seconds = 900%Z)
         /\ sleeps (trace_of (poll_cycle env symbol start_date end_date w)) = [seconds]
         /\ last (trace_of (poll_cycle env symbol start_date end_date w)) EvGetAccount
            = EvSleep seconds
         /\ (seconds = 900%Z ->
             decision_point env symbol start_date end_date w <> None).
Proof.
  intros w. destruct (poll_cycle_account_first w) as (t & Ht & Hno).
  split; [rewrite Ht; reflexivity |].
  split; [rewrite Ht; cbn; rewrite (no_account_accounts _ Hno); reflexivity |].
  apply poll_cycle_sleeps.
Qed.

(** A cycle closes the position exactly when it reaches its decision with
    K > 80 and a tracked position; it then sends one close, for the symbol. *)
Theorem poll_cycle_closes_iff :
  forall w : World,
    closed (trace_of (poll_cycle env symbol start_date end_date w))
    = match decision_point env symbol start_date end_date w with
      | Some (_, latest_kdj, current_position, _) =>
          if (k_above_80 latest_kdj && negb (is_none current_position))%bool
          then [symbol]
          else []
      | None => []
      end.
Proof.
  intros w. rewrite poll_cycle_closed.
  destruct (decision_point env symbol start_date end_date w)
    as [[[[bp latest] pos] w3] |]; [| reflexivity].
  apply poll_decide_closed.
Qed.

(** A cycle acts at most once: it never both buys and closes, and never
    sends two orders or two closes. *)
Theorem poll_cycle_at_most_one_action :
  forall w : World,
    List.length (submitted (trace_of (poll_cycle env symbol start_date end_date w)))
    + List.length (closed (trace_of (poll_cycle env symbol start_date end_date w)))
    <= 1.
Proof.
  intros w. rewrite poll_cycle_closed, poll_cycle_submitted.
  destruct (decision_point env symbol start_date end_date w)
    as [[[[bp latest] pos] w3] |]; [| cbn; lia].
  rewrite poll_decide_closed, poll_decide_submitted.
  destruct pos as [p |]; cbn [is_none negb];
    rewrite ?andb_false_r, ?andb_true_r.
  - destruct (k_above_80 latest); cbn; lia.
  - destruct (k_below_20 latest); [| cbn; lia].
    destruct (latest_quote env symbol w3); cbn; lia.
Qed.

(** With a K that is neither below 20 nor above 80 (20 and 80 themselves
    included, and a K that is not a number) a cycle sends no order and no
    close, whatever the position. *)
Theorem poll_cycle_holds_between_thresholds :
  forall (w w3 : World) buying_power latest_kdj current_position k,
    decision_point env symbol start_date end_date w
    = Some (buying_power, latest_kdj, current_position, w3) ->
    row_getitem latest_kdj "K_9" = Ok k ->
    PrimFloat.ltb k 20 = false ->
    PrimFloat.ltb 80 k = false ->
    submitted (trace_of (poll_cycle env symbol start_date end_date w)) = []
    /\ closed (trace_of (poll_cycle env symbol start_date end_date w)) = [].
Proof.
  intros w w3 bp latest pos k Hd Hk Hlow Hhigh.
  rewrite poll_cycle_closed, poll_cycle_submitted, Hd.
  rewrite poll_decide_closed, poll_decide_submitted.
  unfold k_below_20, k_above_80. rewrite Hk, Hlow, Hhigh. split; reflexivity.
Qed.

(** When the account cannot be read, or its buying power is no number, the
    cycle does nothing else: it logs the error and sleeps 60 seconds. *)
Theorem poll_cycle_account_failure :
  forall (w w1 : World) (e : exn),
    (api_get_account env w = (Raise e, w1)
     \/ exists account,
          api_get_account env w = (Ok account, w1)
          /\ py_float env (acc_buying_power account) = Raise e) ->
    poll_cycle env symbol start_date end_date w
    = (Ok tt, time_sleep env 60 w1,
       [EvGetAccount; EvLog ERROR (MsgLoopError (str_exn e)); EvSleep 60]).
Proof.
  intros w w1 e H.
  unfold poll_cycle, poll_cycle_body, poll_fetch, try_except.
  unfold bind at 1 2. unfold call.
  destruct H as [H | (account & H & Hfloat)]; rewrite H.
  - reflexivity.
  - unfold bind at 1. unfold lift at 1. rewrite Hfloat. reflexivity.
Qed.

(** When the client has no bars (it raises, or its frame is empty) the
    cycle ends after the request with a warning and a sleep of 60 seconds: it
    computes no indicator, asks for no position and sends nothing. *)
Theorem poll_cycle_no_bars :
  forall (w w1 w2 : World) account buying_power,
    api_get_account env w = (Ok account, w1) ->
    py_float env (acc_buying_power account) = Ok buying_power ->
    world_of (fetch_15min_data env symbol start_date end_date w1) = w2 ->
    result_of (fetch_15min_data env symbol start_date end_date w1) = Ok None ->
    poll_cycle env symbol start_date end_date w
    = (Ok tt, time_sleep env 60 w2,
       EvGetAccount :: EvLog INFO (MsgBuyingPower buying_power)
       :: trace_of (fetch_15min_data env symbol start_date end_date w1)
       ++ [EvLog WARNING MsgNoBars; EvSleep 60]).
Proof.
  intros w w1 w2 account bp Ha Hfloat Hw Hr.
  unfold poll_cycle, poll_cycle_body, poll_fetch, try_except.
  unfold bind at 1 2. unfold call. rewrite Ha.
  unfold bind at 1. unfold lift at 1. rewrite Hfloat.
  unfold bind at 1. unfold log at 1, emit at 1. unfold bind at 1.
  unfold result_of, world_of, trace_of in *.
  destruct (fetch_15min_data env symbol start_date end_date w1) as [[r w2'] t2].
  cbn [fst snd] in *. subst r w2'.
  cbn [bind log emit sleep ret fst snd app]. rewrite !app_nil_r. reflexivity.
Qed.

End CycleMore.

Section LoopMore.

Context {World : Type} (env : Env World).

(** In [n] iterations the loop reads the account [n] times and sleeps [n]
    times, 60 or 900 seconds each: one iteration follows another whatever
    failed, and none follows without a sleep. *)
Theorem poll_loop_reads_and_sleeps :
  forall (n : nat) (symbol : string) (start_date end_date : Z) (w : World),
    accounts (trace_of (poll_loop env n symbol start_date end_date w)) = n
    /\ List.length (sleeps (trace_of (poll_loop env n symbol start_date end_date w))) = n
    /\ Forall (fun seconds => seconds = 60%Z \/ seconds = 900%Z)
              (sleeps (trace_of (poll_loop env n symbol start_date end_date w))).
Proof.
  intros n symbol start_date end_date. induction n as [| n IH]; intros w.
  - cbn. repeat split. constructor.
  - cbn [poll_loop]. unfold bind, trace_of.
    destruct (poll_cycle_account_first env symbol start_date end_date w)
      as (t & Ht & Hno).
    destruct (poll_cycle_sleeps env symbol start_date end_date w)
      as (seconds & Hsec & Hs & _).
    pose proof (poll_cycle_returns env symbol start_date end_date w) as Hr.
    unfold trace_of, result_of in *.
    destruct (poll_cycle env symbol start_date end_date w) as [[r w1] t1].
    cbn [fst snd] in *. subst r t1.
    specialize (IH w1).
    destruct (poll_loop env n symbol start_date end_date w1) as [[r2 w2] t2].
    cbn [fst snd] in *. destruct IH as (IHa & IHl & IHf).
    rewrite accounts_app, sleeps_app, Hs, length_app, IHa, IHl.
    cbn [accounts]. rewrite (no_account_accounts _ Hno).
    repeat split; cbn; auto.
Qed.

End LoopMore.

Lemma poll_cycle_holds_between_thresholds_witness :
  (submitted (trace_of (poll_cycle (Demo.env (Demo.hold_script [])) Demo.eth 0%Z 30%Z 0%Z)) = []
   /\ closed (trace_of (poll_cycle (Demo.env (Demo.hold_script [])) Demo.eth 0%Z 30%Z 0%Z)) = [])
  /\ PrimFloat.ltb 20 20 = false /\ PrimFloat.ltb 80 80 = false
  /\ PrimFloat.ltb nan 20 = false /\ PrimFloat.ltb 80 nan = false.
Proof.
  split.
  - apply (poll_cycle_holds_between_thresholds
             (Demo.env (Demo.hold_script [])) Demo.eth 0%Z 30%Z
             0%Z 0%Z 1000%float (Demo.row1 50) None 50%float); reflexivity.
  - repeat split.
Defined.

Lemma poll_cycle_account_failure_witness :
  poll_cycle (Demo.env (Demo.mkScript (Ok (mkAccount "n/a")) (Ok Demo.bars)
                                      (Ok None) (Ok []) (Ok []) (Ok tt) (Ok tt)))
             Demo.eth 0%Z 30%Z 0%Z
  = (Ok tt, 60%Z,
     [EvGetAccount;
      EvLog ERROR (MsgLoopError "could not convert string to float");
      EvSleep 60]).
Proof.
  apply (poll_cycle_account_failure
           (Demo.env (Demo.mkScript (Ok (mkAccount "n/a")) (Ok Demo.bars)
                                    (Ok None) (Ok []) (Ok []) (Ok tt) (Ok tt)))
           Demo.eth 0%Z 30%Z 0%Z 0%Z
           (PyExc "ValueError" "could not convert string to float")).
  right. exists (mkAccount "n/a"). split; reflexivity.
Defined.

Lemma poll_cycle_no_bars_witness :
  poll_cycle (Demo.env (Demo.mkScript (Ok (mkAccount "1000.00")) (Ok pd_DataFrame)
                                      (Ok None) (Ok []) (Ok []) (Ok tt) (Ok tt)))
             Demo.eth 0%Z 30%Z 0%Z
  = (Ok tt, 60%Z,
     [EvGetAccount; EvLog INFO (MsgBuyingPower 1000);
      EvGetCryptoBars Demo.eth "15Min" (fst (window 0 30)) (snd (window 0 30));
      EvLog WARNING (MsgBarsEmpty Demo.eth);
      EvLog WARNING MsgNoBars; EvSleep 60]).
Proof.
  apply (poll_cycle_no_bars
           (Demo.env (Demo.mkScript (Ok (mkAccount "1000.00")) (Ok pd_DataFrame)
                                    (Ok None) (Ok []) (Ok []) (Ok tt) (Ok tt)))
           Demo.eth 0%Z 30%Z 0%Z 0%Z 0%Z (mkAccount "1000.00") 1000%float);
    reflexivity.
Defined.

(** ** The indicator adapter: case of the labels, and the values kept *)

Lemma lower_ascii_idem (c : ascii) : lower_ascii (lower_ascii c) = lower_ascii c.
Proof. destruct c as [[] [] [] [] [] [] [] []]; reflexivity. Qed.

Lemma lower_idem (s : string) : lower (lower s) = lower s.
Proof.
  induction s as [| c s IH]; [reflexivity |].
  cbn. rewrite lower_ascii_idem, IH. reflexivity.
Qed.

Lemma map_lower_idem (cols : list string) : map lower (map lower cols) = map lower cols.
Proof. rewrite map_map. apply map_ext. intros c. apply lower_idem. Qed.

Lemma positions_from_map_inj (f : string -> string) (i : nat) (c : string)
      (cols : list string) :
  NoDup (map f cols) -> In c cols ->
  positions_from i (f c) (map f cols) = positions_from i c cols.
Proof.
  revert i. induction cols as [| a r IH]; intros i Hnd Hin; [destruct Hin |].
  cbn [map] in Hnd. inversion Hnd as [| x l Hnotin Hnd']; subst.
  cbn [map positions_from].
  destruct (String.eqb c a) eqn:Eca.
  - apply String.eqb_eq in Eca; subst a. rewrite String.eqb_refl. f_equal.
    assert (H1 : positions_from (S i) (f c) (map f r) = []).
    { apply positions_from_nil. destruct (mem (f c) (map f r)) eqn:Hm; [| reflexivity].
      apply mem_In in Hm. contradiction. }
    assert (H2 : positions_from (S i) c r = []).
    { apply positions_from_nil. destruct (mem c r) eqn:Hm; [| reflexivity].
      apply mem_In in Hm. exfalso. apply Hnotin. apply in_map. exact Hm. }
    rewrite H1, H2. reflexivity.
  - apply String.eqb_neq in Eca.
    destruct Hin as [-> | Hin]; [contradiction |].
    destruct (String.eqb (f c) (f a)) eqn:Efa.
    + apply String.eqb_eq in Efa. exfalso. apply Hnotin.
      rewrite <- Efa. apply in_map. exact Hin.
    + apply IH; assumption.
Qed.

Section IndicatorMore.

Context {World : Type} (env : Env World).

(** [calculate_kdj] reads the labels of the bars without their case: two
    frames with the same rows and the same labels up to case give the same
    result, and lower-casing the labels first, as the loop does at line 239,
    changes nothing. *)
Theorem calculate_kdj_ignores_case :
  forall (data : DataFrame) (w : World),
    (forall data',
        rows data' = rows data ->
        map lower (columns data') = map lower (columns data) ->
        calculate_kdj env data' w = calculate_kdj env data w)
    /\ calculate_kdj env (set_columns data (map lower (columns data))) w
       = calculate_kdj env data w.
Proof.
  intros data w.
  assert (H : forall data',
             rows data' = rows data ->
             map lower (columns data') = map lower (columns data) ->
             calculate_kdj env data' w = calculate_kdj env data w).
  { intros data' Hrows Hcols. unfold calculate_kdj, kdj_call, set_columns.
    rewrite Hrows, Hcols. reflexivity. }
  split; [exact H |].
  apply H; [reflexivity | apply map_lower_idem].
Qed.

Lemma calculate_kdj_renamed_frame (data kdj_result : DataFrame) (w : World) :
  kdj_call env data = Ok (Some kdj_result) ->
  has_expected_columns kdj_result = true ->
  NoDup (columns (rename kdj_result kdj_mapping)) ->
  result_of (calculate_kdj env data w)
  = Ok (mkDF ["K_9"; "D_9"; "J_9"]
             (map (fun raw =>
                     [value_at (columns kdj_result) expected_k_col raw;
                      value_at (columns kdj_result) expected_d_col raw;
                      value_at (columns kdj_result) expected_j_col raw])
                  (rows kdj_result))).
Proof.
  revert data kdj_result w.
  intros data res w Hcall Hcols Hnd.
  destruct (calculate_kdj_run env data w) as (r & t & Hrun & Hcase).
  rewrite Hrun. unfold result_of. cbn [fst]. f_equal.
  rewrite Hcall, Hcols in Hcase.
  unfold has_expected_columns in Hcols.
  apply andb_prop in Hcols as [Hcols Hj]. apply andb_prop in Hcols as [Hk Hd].
  apply mem_In in Hk, Hd, Hj.
  set (ren := fun c => match assoc c kdj_mapping with Some c' => c' | None => c end).
  assert (Hren : columns (rename res kdj_mapping) = map ren (columns res))
    by reflexivity.
  rewrite Hren in Hnd.
  pose proof (positions_from_map_inj ren 0 expected_k_col (columns res) Hnd Hk) as Pk.
  pose proof (positions_from_map_inj ren 0 expected_d_col (columns res) Hnd Hd) as Pd.
  pose proof (positions_from_map_inj ren 0 expected_j_col (columns res) Hnd Hj) as Pj.
  assert (Hndres : NoDup (columns res)) by (eapply NoDup_map_inv; exact Hnd).
  destruct (positions_from_NoDup 0 expected_k_col (columns res) Hndres
              (proj2 (mem_In _ _) Hk)) as [ik Hik].
  destruct (positions_from_NoDup 0 expected_d_col (columns res) Hndres
              (proj2 (mem_In _ _) Hd)) as [id Hid].
  destruct (positions_from_NoDup 0 expected_j_col (columns res) Hndres
              (proj2 (mem_In _ _) Hj)) as [ij Hij].
  rewrite Hik in Pk. rewrite Hid in Pd. rewrite Hij in Pj.
  change (ren expected_k_col) with "K_9" in Pk.
  change (ren expected_d_col) with "D_9" in Pd.
  change (ren expected_j_col) with "J_9" in Pj.
  unfold getitem_labels in Hcase.
  destruct (find _ _); [discriminate |].
  rewrite Hren in Hcase. cbn [flat_map] in Hcase. unfold positions in Hcase.
  rewrite Pk, Pd, Pj in Hcase. cbn [map app fst snd] in Hcase.
  inversion Hcase; subst r; clear Hcase.
  f_equal. cbn [rows rename]. apply map_ext. intros raw.
  unfold value_at, positions. rewrite Hik, Hid, Hij. reflexivity.
Qed.

(** When the library's frame has the three expected columns and, once
    renamed, no label twice, the result of [calculate_kdj] has the columns
    K_9, D_9, J_9 in this order whatever their order in the library's frame,
    and each row holds the library's K_9_3, D_9_3 and J_9_3 of that row. *)
Theorem calculate_kdj_keeps_values :
  forall (data kdj_result : DataFrame) (w : World),
    kdj_call env data = Ok (Some kdj_result) ->
    has_expected_columns kdj_result = true ->
    NoDup (columns (rename kdj_result kdj_mapping)) ->
    result_of (calculate_kdj env data w)
    = Ok (mkDF ["K_9"; "D_9"; "J_9"]
               (map (fun raw =>
                       [value_at (columns kdj_result) expected_k_col raw;
                        value_at (columns kdj_result) expected_d_col raw;
                        value_at (columns kdj_result) expected_j_col raw])
                    (rows kdj_result))).
Proof.
  intros data kdj_result w Hcall Hcols Hnd.
  apply calculate_kdj_renamed_frame; assumption.
Qed.

Lemma map_fst_tag (l : string) (ps : list nat) :
  map fst (map (fun i => (l, i)) ps) = repeat l (List.length ps).
Proof. induction ps as [| i ps IH]; cbn; [reflexivity | rewrite IH; reflexivity]. Qed.

Lemma map_snd_tag (l : string) (raw : list float) (ps : list nat) :
  map (fun p : string * nat => cell raw (snd p)) (map (fun i => (l, i)) ps)
  = map (cell raw) ps.
Proof. rewrite map_map. reflexivity. Qed.

(** [df[[a, b, c]]]: the columns labelled [a], then those labelled [b],
    then those labelled [c], with their values. *)
Lemma getitem_labels_three (df r : DataFrame) (a b c : string) :
  getitem_labels df [a; b; c] = Ok r ->
  columns r
  = repeat a (List.length (positions a (columns df)))
    ++ repeat b (List.length (positions b (columns df)))
    ++ repeat c (List.length (positions c (columns df)))
  /\ rows r
     = map (fun raw =>
              map (cell raw)
                  (positions a (columns df) ++ positions b (columns df)
                   ++ positions c (columns df)))
           (rows df)
  /\ positions a (columns df) <> []
  /\ positions b (columns df) <> []
  /\ positions c (columns df) <> [].
Proof.
  unfold getitem_labels.
  destruct (find _ _) eqn:Hfind; [discriminate |].
  intros H; inversion H; subst r; clear H. cbn [columns rows flat_map].
  rewrite app_nil_r, !map_app, !map_fst_tag.
  rewrite find_absent_None in Hfind.
  split; [reflexivity |]. split.
  - apply map_ext. intros raw. rewrite !map_app, !map_snd_tag. reflexivity.
  - repeat split; intros Hnil; apply positions_from_nil in Hnil;
      rewrite Hfind in Hnil; try discriminate; cbn; auto.
Qed.

(** C6, as the program has it: [calculate_kdj] never raises.  When the
    library call raises, returns [None] (too little history) or returns a
    frame without one of the three expected columns, the result is the empty
    [pd.DataFrame()], never a part of a frame.  Otherwise the result holds,
    in this order, the columns of the renamed frame labelled K_9, those
    labelled D_9 and those labelled J_9, at least one of each, with their
    values and one row per row of the library's frame; so a result that is
    not empty has the labels K_9, D_9, J_9 and no other.  It is exactly the
    three columns K_9, D_9, J_9, holding the library's K_9_3, D_9_3 and J_9_3,
    when the renamed frame repeats no label. *)
Theorem calculate_kdj_no_result_or_renamed :
  forall (data : DataFrame) (w : World),
  exists r t,
    calculate_kdj env data w = (Ok r, w, t)
    /\ (forall e, kdj_call env data = Raise e -> r = pd_DataFrame)
    /\ (kdj_call env data = Ok None -> r = pd_DataFrame)
    /\ (forall kdj_result,
          kdj_call env data = Ok (Some kdj_result) ->
          has_expected_columns kdj_result = false -> r = pd_DataFrame)
    /\ (forall kdj_result,
          kdj_call env data = Ok (Some kdj_result) ->
          has_expected_columns kdj_result = true ->
          columns r
          = repeat "K_9" (List.length (positions "K_9" (columns (rename kdj_result kdj_mapping))))
            ++ repeat "D_9" (List.length (positions "D_9" (columns (rename kdj_result kdj_mapping))))
            ++ repeat "J_9" (List.length (positions "J_9" (columns (rename kdj_result kdj_mapping))))
          /\ positions "K_9" (columns (rename kdj_result kdj_mapping)) <> []
          /\ positions "D_9" (columns (rename kdj_result kdj_mapping)) <> []
          /\ positions "J_9" (columns (rename kdj_result kdj_mapping)) <> []
          /\ rows r
             = map (fun raw =>
                      map (cell raw)
                          (positions "K_9" (columns (rename kdj_result kdj_mapping))
                           ++ positions "D_9" (columns (rename kdj_result kdj_mapping))
                           ++ positions "J_9" (columns (rename kdj_result kdj_mapping))))
                   (rows kdj_result)
          /\ (NoDup (columns (rename kdj_result kdj_mapping)) ->
              r = mkDF ["K_9"; "D_9"; "J_9"]
                       (map (fun raw =>
                               [value_at (columns kdj_result) expected_k_col raw;
                                value_at (columns kdj_result) expected_d_col raw;
                                value_at (columns kdj_result) expected_j_col raw])
                            (rows kdj_result))))
    /\ (empty r = false ->
        (forall c, In c (columns r) <-> c = "K_9" \/ c = "D_9" \/ c = "J_9")
        /\ exists kdj_result,
             kdj_call env data = Ok (Some kdj_result)
             /\ has_expected_columns kdj_result = true).
Proof.
  intros data w.
  destruct (calculate_kdj_run env data w) as (r & t & Hrun & Hcase).
  exists r, t. split; [exact Hrun |].
  destruct (kdj_call env data) as [[kdj_result |] | e] eqn:Hcall.
  - destruct (has_expected_columns kdj_result) eqn:Hcols.
    + split; [discriminate | split; [discriminate | split; [| split]]].
      * intros res H; inversion H; subst. congruence.
      * intros res H _. inversion H; subst res; clear H.
        destruct (getitem_labels_three _ _ _ _ _ Hcase) as (Hc & Hr & Hk & Hd & Hj).
        split; [exact Hc |]. split; [exact Hk |]. split; [exact Hd |].
        split; [exact Hj |]. split; [exact Hr |].
        intros Hnd.
        pose proof (calculate_kdj_renamed_frame data kdj_result w Hcall Hcols Hnd) as Hv.
        rewrite Hrun in Hv. unfold result_of in Hv. cbn [fst] in Hv.
        inversion Hv. reflexivity.
      * intros _. split; [| exists kdj_result; auto].
        apply getitem_labels_columns in Hcase as (Hin & _).
        intros c. rewrite Hin. cbn. intuition auto.
    + subst r. split; [auto |]. split; [auto |]. split; [auto |]. split.
      * intros res H Hyes. inversion H; subst. congruence.
      * intros He. discriminate He.
  - subst r. split; [auto |]. split; [auto |]. split; [auto |]. split.
    + intros res H. discriminate H.
    + intros He. discriminate He.
  - subst r. split; [auto |]. split; [auto |]. split; [auto |]. split.
    + intros res H. discriminate H.
    + intros He. discriminate He.
Qed.

End IndicatorMore.

Lemma calculate_kdj_ignores_case_witness :
  calculate_kdj (Demo.env Demo.buy_script)
                (mkDF ["OPEN"; "HIGH"; "LOW"; "CLOSE"; "VOLUME"] (rows Demo.bars)) 0%Z
  = calculate_kdj (Demo.env Demo.buy_script) Demo.bars 0%Z.
Proof.
  apply (proj1 (calculate_kdj_ignores_case (Demo.env Demo.buy_script) Demo.bars 0%Z));
    reflexivity.
Defined.

(** The library's columns in the order J, D, K and one more: the result is
    still K, D, J with the right values. *)
Lemma calculate_kdj_keeps_values_witness :
  result_of
    (calculate_kdj
       (Demo.env (Demo.mkScript (Ok (mkAccount "1000.00")) (Ok Demo.bars)
                    (Ok (Some (mkDF ["J_9_3"; "D_9_3"; "extra"; "K_9_3"]
                                    [[1; 2; 3; 4]%float; [5; 6; 7; 8]%float])))
                    (Ok []) (Ok []) (Ok tt) (Ok tt)))
       Demo.bars 0%Z)
  = Ok (mkDF ["K_9"; "D_9"; "J_9"] [[4; 2; 1]%float; [8; 6; 5]%float]).
Proof.
  apply (calculate_kdj_keeps_values
           (Demo.env (Demo.mkScript (Ok (mkAccount "1000.00")) (Ok Demo.bars)
                        (Ok (Some (mkDF ["J_9_3"; "D_9_3"; "extra"; "K_9_3"]
                                        [[1; 2; 3; 4]%float; [5; 6; 7; 8]%float])))
                        (Ok []) (Ok []) (Ok tt) (Ok tt)))
           Demo.bars
           (mkDF ["J_9_3"; "D_9_3"; "extra"; "K_9_3"]
                 [[1; 2; 3; 4]%float; [5; 6; 7; 8]%float]) 0%Z).
  - reflexivity.
  - reflexivity.
  - vm_compute. repeat constructor; cbn; intuition discriminate.
Defined.

(** ** The messages of the stream *)

Lemma assoc_mem {A : Type} (k : string) (kv : list (string * A)) :
  mem k (map fst kv) = match assoc k kv with Some _ => true | None => false end.
Proof.
  induction kv as [| [k' v] kv IH]; [reflexivity |].
  cbn. destruct (String.eqb k k'); [reflexivity | exact IH].
Qed.

Lemma connects_app (t1 t2 : list event) : connects (t1 ++ t2) = connects t1 + connects t2.
Proof.
  induction t1 as [| ev t1 IH]; [reflexivity |].
  destruct ev; cbn; rewrite ?IH; reflexivity.
Qed.

Lemma no_connect_connects (t : list event) : forallb no_connect t = true -> connects t = 0.
Proof.
  induction t as [| ev t IH]; [reflexivity |].
  cbn. intros H. apply andb_prop in H as [Hev Ht].
  destruct ev; try discriminate; auto.
Qed.

Section Messages.

Context {World : Type} (env : Env World).
Variables (api_key secret_key symbol : string).

(** A message whose first element is a dict with a type tag ["T"] makes
    [on_message] log at most: it sends nothing and leaves the world as it
    was.  A quote (["q"]) and an unknown tag do nothing at all. *)
Theorem on_message_typed_is_silent :
  forall (message : string) (w : World) kv rest ty,
    json_loads env message = Ok (JArr (JObj kv :: rest)) ->
    assoc "T" kv = Some ty ->
    world_of (on_message env api_key secret_key symbol message w) = w
    /\ forallb is_log (trace_of (on_message env api_key secret_key symbol message w))
       = true
    /\ (eq_str ty "trade_update" = false -> eq_str ty "s" = false ->
        trace_of (on_message env api_key secret_key symbol message w) = []).
Proof.
  intros message w kv rest ty Hload HT.
  unfold on_message, on_message_body. unfold_monad.
  rewrite Hload. cbn [fst snd app truthy negb getitem0 contains getitem get].
  rewrite assoc_mem, HT. cbn [fst snd app negb].
  destruct (eq_str ty "trade_update") eqn:Etu; cbn [fst snd app].
  - destruct (assoc "order" kv) as [[| | | | | | okv] |]; cbn; repeat split; discriminate.
  - destruct (eq_str ty "q") eqn:Eq; cbn [fst snd app]; [repeat split |].
    destruct (eq_str ty "s") eqn:Es; cbn [fst snd app]; repeat split; discriminate.
Qed.

(** A trade update logs six fields of its order, [None] for each one the
    order lacks and for all six when the message has no order; an order that
    is not a dict is an error of the handler, which logs it. *)
Theorem on_message_trade_update :
  forall (message : string) (w : World) kv rest,
    json_loads env message = Ok (JArr (JObj kv :: rest)) ->
    assoc "T" kv = Some (JStr "trade_update") ->
    match assoc "order" kv with
    | Some (JObj order) =>
        trace_of (on_message env api_key secret_key symbol message w)
        = [EvLog INFO (MsgTradeUpdate
                         [field order "id"; field order "status";
                          field order "order_type"; field order "side";
                          field order "qty"; field order "filled_avg_price"])]
    | None =>
        trace_of (on_message env api_key secret_key symbol message w)
        = [EvLog INFO (MsgTradeUpdate [JNull; JNull; JNull; JNull; JNull; JNull])]
    | Some _ =>
        exists err,
          trace_of (on_message env api_key secret_key symbol message w)
          = [EvLog ERROR (MsgWsHandlerError err)]
    end.
Proof.
  intros message w kv rest Hload HT.
  unfold on_message, on_message_body. unfold_monad.
  rewrite Hload. cbn [fst snd app truthy negb getitem0 contains getitem get].
  rewrite assoc_mem, HT. cbn [fst snd app negb eq_str String.eqb Ascii.eqb Bool.eqb].
  destruct (assoc "order" kv) as [[| | | | | | okv] |]; cbn;
    try (eexists; reflexivity); reflexivity.
Qed.

(** A first element without a type tag and with [msg] equal to
    ["connected"] makes [on_message] send the credentials and then the
    subscribe request for the symbol; when sending the credentials fails the
    subscribe request is not sent and the failure is logged.  Without the tag
    and with any other [msg] nothing happens. *)
Theorem on_message_connected :
  forall (message : string) (w : World) kv rest,
    json_loads env message = Ok (JArr (JObj kv :: rest)) ->
    assoc "T" kv = None ->
    (eq_str (field kv "msg") "connected" = false ->
     on_message env api_key secret_key symbol message w = (Ok tt, w, []))
    /\ (eq_str (field kv "msg") "connected" = true ->
        (forall w1 w2 r,
            ws_send env (auth_msg api_key secret_key) w = (Ok tt, w1) ->
            ws_send env (subscribe_msg symbol) w1 = (r, w2) ->
            world_of (on_message env api_key secret_key symbol message w) = w2
            /\ exists logs,
                 trace_of (on_message env api_key secret_key symbol message w)
                 = EvLog INFO MsgWsConnected
                   :: EvWsSend (auth_msg api_key secret_key)
                   :: EvWsSend (subscribe_msg symbol) :: logs
                 /\ forallb is_log logs = true)
        /\ (forall w1 e,
              ws_send env (auth_msg api_key secret_key) w = (Raise e, w1) ->
              on_message env api_key secret_key symbol message w
              = (Ok tt, w1,
                 [EvLog INFO MsgWsConnected; EvWsSend (auth_msg api_key secret_key);
                  EvLog ERROR (MsgWsHandlerError (str_exn e))]))).
Proof.
  intros message w kv rest Hload HT.
  unfold on_message, on_message_body, field. unfold_monad.
  rewrite Hload. cbn [fst snd app truthy negb getitem0 contains getitem get].
  rewrite assoc_mem, HT. cbn [fst snd app negb].
  split.
  - intros ->. reflexivity.
  - intros ->. cbn [fst snd app]. split.
    + intros w1 w2 r -> ->. cbn [fst snd app].
      destruct r as [[] | e]; cbn; split; try reflexivity;
        eexists; split; reflexivity.
    + intros w1 e ->. reflexivity.
Qed.

(** [on_open] sends the credentials and then the subscribe request; when
    sending the credentials fails the subscribe request is not sent and the
    error reaches [on_error]. *)
Theorem on_open_handshake :
  forall w : World,
    (forall w1 w2,
        ws_send env (auth_msg api_key secret_key) w = (Ok tt, w1) ->
        ws_send env (subscribe_msg symbol) w1 = (Ok tt, w2) ->
        run_callback (on_open env api_key secret_key symbol) w
        = (Ok tt, w2,
           [EvLog INFO MsgWsOpen; EvWsSend (auth_msg api_key secret_key);
            EvWsSend (subscribe_msg symbol)]))
    /\ (forall w1 e,
          ws_send env (auth_msg api_key secret_key) w = (Raise e, w1) ->
          run_callback (on_open env api_key secret_key symbol) w
          = (Ok tt, w1,
             [EvLog INFO MsgWsOpen; EvWsSend (auth_msg api_key secret_key);
              EvLog ERROR (MsgWsError (str_exn e))])).
Proof.
  intros w. unfold run_callback, on_open, on_error. unfold_monad. split.
  - intros w1 w2 -> ->. reflexivity.
  - intros w1 e ->. reflexivity.
Qed.

Lemma run_callback_listener (m : M World unit) :
  emits (fun ev => (listener_event ev && no_connect ev && no_sleep ev)%bool) m ->
  forall w,
    result_of (run_callback m w) = Ok tt
    /\ forallb (fun ev => (listener_event ev && no_connect ev && no_sleep ev)%bool)
               (trace_of (run_callback m w)) = true.
Proof.
  intros Hm w. specialize (Hm w). unfold run_callback, try_except, result_of, trace_of in *.
  destruct (m w) as [[[[] | e] w1] t1]; cbn in *; [auto |].
  split; [reflexivity |]. rewrite forallb_app, Hm. reflexivity.
Qed.

Lemma quiet_callback_counts (t : list event) :
  forallb (fun ev => (listener_event ev && no_connect ev && no_sleep ev)%bool) t = true ->
  forallb listener_event t = true /\ connects t = 0 /\ sleeps t = [].
Proof.
  induction t as [| ev t IH]; [auto |].
  cbn [forallb]. intros H. apply andb_prop in H as [Hev Ht].
  destruct (IH Ht) as (Hl & Hc & Hs).
  destruct ev; cbn in *; try discriminate; rewrite ?Hl; auto.
Qed.

Lemma run_forever_after_close (pre rest : list callback) (code : Z) (msg : string)
      (w : World) :
  run_forever env api_key secret_key symbol (pre ++ CbClose code msg :: rest) w
  = run_forever env api_key secret_key symbol (pre ++ [CbClose code msg]) w.
Proof.
  revert w. induction pre as [| cb pre IH]; intros w; [reflexivity |].
  destruct cb; cbn [app run_forever]; try reflexivity;
    unfold bind; destruct (run_callback _ w) as [[[[] | e] w1] t1];
    try reflexivity; rewrite IH; reflexivity.
Qed.

Lemma run_forever_listener (script : list callback) (w : World) :
  result_of (run_forever env api_key secret_key symbol script w) = Ok tt
  /\ forallb listener_event
             (trace_of (run_forever env api_key secret_key symbol script w)) = true
  /\ connects (trace_of (run_forever env api_key secret_key symbol script w)) = 0
  /\ sleeps (trace_of (run_forever env api_key secret_key symbol script w))
     = (if Nat.eqb (closes_delivered script) 0 then [] else [5%Z])
  /\ (closes_delivered script <> 0 ->
      exists t,
        trace_of (run_forever env api_key secret_key symbol script w)
        = t ++ [EvLog INFO MsgWsReconnecting; EvSleep 5;
                EvLog ERROR (MsgWsError
                  "asyncio.run() cannot be called from a running event loop")]).
Proof.
  revert w. induction script as [| cb rest IH]; intros w.
  - cbn. repeat split; auto. intros H; contradiction.
  - assert (Hstep : forall m,
               emits (fun ev => (listener_event ev && no_connect ev && no_sleep ev)%bool) m ->
               let x := bind (run_callback m)
                             (fun _ => run_forever env api_key secret_key symbol rest) w in
               result_of x = Ok tt
               /\ forallb listener_event (trace_of x) = true
               /\ connects (trace_of x) = 0
               /\ sleeps (trace_of x)
                  = (if Nat.eqb (closes_delivered rest) 0 then [] else [5%Z])
               /\ (closes_delivered rest <> 0 ->
                   exists t,
                     trace_of x
                     = t ++ [EvLog INFO MsgWsReconnecting; EvSleep 5;
                             EvLog ERROR (MsgWsError
                               "asyncio.run() cannot be called from a running event loop")])).
    { intros m Hm. cbv zeta. unfold bind, result_of, trace_of.
      destruct (run_callback_listener m Hm w) as [Hr Hq].
      unfold result_of, trace_of in Hr, Hq.
      destruct (run_callback m w) as [[r w1] t1]. cbn [fst snd] in *. subst r.
      specialize (IH w1). unfold result_of, trace_of in IH.
      destruct (run_forever env api_key secret_key symbol rest w1) as [[r2 w2] t2].
      cbn [fst snd] in *. destruct IH as (IHr & IHl & IHc & IHs & IHt).
      destruct (quiet_callback_counts _ Hq) as (Hl & Hc & Hs).
      rewrite forallb_app, connects_app, sleeps_app, Hl, Hc, Hs, IHl, IHc, IHs.
      repeat split; auto.
      intros Hne. destruct (IHt Hne) as [t ->].
      exists (t1 ++ t). rewrite app_assoc. reflexivity. }
    destruct cb; cbn [run_forever closes_delivered].
    + apply Hstep. unfold on_open, send. emits_auto.
    + apply Hstep. unfold on_message, on_message_body, send. emits_auto.
    + apply Hstep. unfold on_error. emits_auto.
    + unfold run_callback, on_close, asyncio_run_nested, on_error. unfold_monad.
      cbn. repeat split; auto. intros _.
      exists [EvLog INFO (MsgWsClosed close_status_code close_msg)]. reflexivity.
Qed.

(** The listener never raises and never calls the exchange client.  It
    opens one connection and never a second one: at the first close the
    transport delivers, [on_close] logs, sleeps 5 seconds and fails in
    [asyncio.run]; the error reaches [on_error] and the listener ends, so
    what the script holds after that close is not handled. *)
Theorem websocket_stream_never_reconnects :
  forall (script : list callback) (w : World),
    result_of (websocket_stream env api_key secret_key symbol script w) = Ok tt
    /\ forallb listener_event
               (trace_of (websocket_stream env api_key secret_key symbol script w)) = true
    /\ connects (trace_of (websocket_stream env api_key secret_key symbol script w)) = 1
    /\ sleeps (trace_of (websocket_stream env api_key secret_key symbol script w))
       = (if Nat.eqb (closes_delivered script) 0 then [] else [5%Z])
    /\ (closes_delivered script <> 0 ->
        exists t,
          trace_of (websocket_stream env api_key secret_key symbol script w)
          = t ++ [EvLog INFO MsgWsReconnecting; EvSleep 5;
                  EvLog ERROR (MsgWsError
                    "asyncio.run() cannot be called from a running event loop")])
    /\ (forall pre code msg rest,
          script = pre ++ CbClose code msg :: rest ->
          websocket_stream env api_key secret_key symbol script w
          = websocket_stream env api_key secret_key symbol (pre ++ [CbClose code msg]) w).
Proof.
  intros script w. unfold websocket_stream.
  destruct (run_forever_listener script w) as (Hr & Hl & Hc & Hs & Ht).
  assert (Hcut : forall pre code msg rest,
             script = pre ++ CbClose code msg :: rest ->
             bind (emit (EvWsRunForever ws_url 30 10))
                  (fun _ => run_forever env api_key secret_key symbol script) w
             = bind (emit (EvWsRunForever ws_url 30 10))
                    (fun _ => run_forever env api_key secret_key symbol
                                          (pre ++ [CbClose code msg])) w).
  { intros pre code msg rest ->. unfold bind, emit.
    rewrite run_forever_after_close. reflexivity. }
  unfold bind, emit, result_of, trace_of in *.
  destruct (run_forever env api_key secret_key symbol script w) as [[r2 w2] t2].
  cbn [fst snd app] in *.
  split; [exact Hr |]. split; [cbn; exact Hl |].
  split; [cbn; rewrite Hc; reflexivity |].
  split; [cbn; exact Hs |].
  split; [| exact Hcut].
  intros Hne. destruct (Ht Hne) as [t ->].
  exists (EvWsRunForever ws_url 30 10 :: t). reflexivity.
Qed.

End Messages.

Lemma on_message_typed_is_silent_witness :
  world_of (on_message (DemoStream.env (Ok tt)) "key" "secret" Demo.eth "[{T: q}]" 0%Z)
  = 0%Z
  /\ forallb is_log
       (trace_of (on_message (DemoStream.env (Ok tt)) "key" "secret" Demo.eth
                             "[{T: q}]" 0%Z)) = true
  /\ trace_of (on_message (DemoStream.env (Ok tt)) "key" "secret" Demo.eth
                          "[{T: q}]" 0%Z) = [].
Proof.
  destruct (on_message_typed_is_silent
              (DemoStream.env (Ok tt)) "key" "secret" Demo.eth "[{T: q}]" 0%Z
              [("T", JStr "q")] [] (JStr "q") eq_refl eq_refl) as (Hw & Hl & Ht).
  split; [exact Hw | split; [exact Hl |]].
  apply Ht; reflexivity.
Defined.

Lemma on_message_trade_update_witness :
  trace_of (on_message (DemoStream.env (Ok tt)) "key" "secret" Demo.eth
              "[{T: trade_update, order: {id: 7, status: filled}}]" 0%Z)
  = [EvLog INFO (MsgTradeUpdate [JInt 7; JStr "filled"; JNull; JNull; JNull; JNull])].
Proof.
  apply (on_message_trade_update
           (DemoStream.env (Ok tt)) "key" "secret" Demo.eth
           "[{T: trade_update, order: {id: 7, status: filled}}]" 0%Z
           [("T", JStr "trade_update");
            ("order", JObj [("id", JInt 7); ("status", JStr "filled")])] []);
    reflexivity.
Defined.

Lemma on_message_connected_witness :
  (exists logs,
      trace_of (on_message (DemoStream.env (Ok tt)) "key" "secret" Demo.eth
                           "[{msg: connected}]" 0%Z)
      = EvLog INFO MsgWsConnected :: EvWsSend (auth_msg "key" "secret")
        :: EvWsSend (subscribe_msg Demo.eth) :: logs
      /\ forallb is_log logs = true)
  /\ on_message (DemoStream.env (Raise DemoStream.broken_pipe)) "key" "secret" Demo.eth
                "[{msg: connected}]" 0%Z
     = (Ok tt, 0%Z,
        [EvLog INFO MsgWsConnected; EvWsSend (auth_msg "key" "secret");
         EvLog ERROR (MsgWsHandlerError "Broken pipe")]).
Proof.
  split.
  - apply (proj1 (proj2 (on_message_connected
                           (DemoStream.env (Ok tt)) "key" "secret" Demo.eth
                           "[{msg: connected}]" 0%Z [("msg", JStr "connected")] []
                           eq_refl eq_refl) eq_refl)
                 0%Z 0%Z (Ok tt)); reflexivity.
  - apply (proj2 (proj2 (on_message_connected
                           (DemoStream.env (Raise DemoStream.broken_pipe))
                           "key" "secret" Demo.eth
                           "[{msg: connected}]" 0%Z [("msg", JStr "connected")] []
                           eq_refl eq_refl) eq_refl)
                 0%Z DemoStream.broken_pipe); reflexivity.
Defined.

Lemma on_open_handshake_witness :
  run_callback (on_open (DemoStream.env (Ok tt)) "key" "secret" Demo.eth) 0%Z
  = (Ok tt, 0%Z,
     [EvLog INFO MsgWsOpen; EvWsSend (auth_msg "key" "secret");
      EvWsSend (subscribe_msg Demo.eth)])
  /\ run_callback (on_open (DemoStream.env (Raise DemoStream.broken_pipe))
                           "key" "secret" Demo.eth) 0%Z
     = (Ok tt, 0%Z,
        [EvLog INFO MsgWsOpen; EvWsSend (auth_msg "key" "secret");
         EvLog ERROR (MsgWsError "Broken pipe")]).
Proof.
  split.
  - apply (proj1 (on_open_handshake (DemoStream.env (Ok tt)) "key" "secret"
                                    Demo.eth 0%Z) 0%Z 0%Z); reflexivity.
  - apply (proj2 (on_open_handshake (DemoStream.env (Raise DemoStream.broken_pipe))
                                    "key" "secret" Demo.eth 0%Z)
                 0%Z DemoStream.broken_pipe); reflexivity.
Defined.

Lemma poll_cycle_one_read_one_sleep_witness :
  sleeps (trace_of (poll_cycle (Demo.env Demo.buy_script) Demo.eth 0%Z 30%Z 0%Z))
  = [900%Z]
  /\ decision_point (Demo.env Demo.buy_script) Demo.eth 0%Z 30%Z 0%Z <> None.
Proof.
  destruct (poll_cycle_one_read_one_sleep
              (Demo.env Demo.buy_script) Demo.eth 0%Z 30%Z 0%Z)
    as (_ & _ & seconds & _ & Hs & _ & Hd).
  assert (Hsec : seconds = 900%Z).
  { vm_compute in Hs. inversion Hs. reflexivity. }
  split; [rewrite Hs, Hsec; reflexivity | exact (Hd Hsec)].
Defined.

Lemma websocket_stream_never_reconnects_witness :
  (exists t,
      trace_of (websocket_stream (DemoStream.env (Ok tt)) "key" "secret" Demo.eth
                                 [CbOpen; CbClose 1006 "gone"; CbOpen] 0%Z)
      = t ++ [EvLog INFO MsgWsReconnecting; EvSleep 5;
              EvLog ERROR (MsgWsError
                "asyncio.run() cannot be called from a running event loop")])
  /\ websocket_stream (DemoStream.env (Ok tt)) "key" "secret" Demo.eth
                      [CbOpen; CbClose 1006 "gone"; CbOpen] 0%Z
     = websocket_stream (DemoStream.env (Ok tt)) "key" "secret" Demo.eth
                        [CbOpen; CbClose 1006 "gone"] 0%Z.
Proof.
  destruct (websocket_stream_never_reconnects
              (DemoStream.env (Ok tt)) "key" "secret" Demo.eth
              [CbOpen; CbClose 1006 "gone"; CbOpen] 0%Z)
    as (_ & _ & _ & _ & Htail & Hcut).
  split.
  - apply Htail. discriminate.
  - apply (Hcut [CbOpen] 1006%Z "gone" [CbOpen]). reflexivity.
Defined.

Lemma calculate_kdj_no_result_or_renamed_witness :
  (exists r t,
     calculate_kdj (Demo.env Demo.buy_script) Demo.bars 0%Z = (Ok r, 0%Z, t)
     /\ r = mkDF ["K_9"; "D_9"; "J_9"] [[15; 30; 10]%float])
  /\ (exists r t,
        calculate_kdj (Demo.env Demo.short_history_script) Demo.bars 0%Z = (Ok r, 0%Z, t)
        /\ r = pd_DataFrame).
Proof.
  split.
  - destruct (calculate_kdj_no_result_or_renamed (Demo.env Demo.buy_script) Demo.bars 0%Z)
      as (r & t & Hrun & _ & _ & _ & Hfull & _).
    exists r, t. split; [exact Hrun |].
    destruct (Hfull (Demo.kdj1 15) eq_refl eq_refl) as (_ & _ & _ & _ & _ & Hnd).
    rewrite Hnd; [reflexivity |].
    vm_compute. repeat constructor; cbn; intuition discriminate.
  - destruct (calculate_kdj_no_result_or_renamed (Demo.env Demo.short_history_script)
                Demo.bars 0%Z)
      as (r & t & Hrun & _ & Hnone & _).
    exists r, t. split; [exact Hrun |].
    apply Hnone. reflexivity.
Defined.

(** C6 as stated fails: the library's frame has the three expected columns
    and a column K_9 of its own, and the result has four columns, two of them
    labelled K_9. *)
Lemma returns_exactly_three_columns_fails :
  ~ returns_exactly_three_columns (Demo.env DemoIndicator.script) Demo.bars 0%Z.
Proof.
  intros H.
  specialize (H (mkDF ["K_9"; "K_9"; "D_9"; "J_9"] [[15; 99; 30; 10]%float])
                eq_refl eq_refl).
  discriminate H.
Qed.

(** ** The row a cycle decides on, and bars whose index does not convert *)

Lemma iloc_neg_last (kdj : DataFrame) (r : Row) :
  iloc_neg kdj 1 = Ok r ->
  exists before raw, rows kdj = before ++ [raw] /\ r = mkRow (columns kdj) raw.
Proof.
  unfold iloc_neg. cbn [Nat.sub].
  destruct (rev (rows kdj)) as [| raw l] eqn:Hrev; cbn [nth_error]; [discriminate |].
  intros H; inversion H; subst r.
  exists (rev l), raw. split; [| reflexivity].
  rewrite <- (rev_involutive (rows kdj)), Hrev. reflexivity.
Qed.

Section LatestRow.

Context {World : Type} (env : Env World).
Variables (symbol : string) (start_date end_date : Z).

(** The row a cycle decides on is the last row of the indicator frame it
    computed, whatever the rows before it. *)
Theorem decision_point_reads_last_row :
  forall (w w3 : World) buying_power latest_kdj current_position,
    decision_point env symbol start_date end_date w
    = Some (buying_power, latest_kdj, current_position, w3) ->
    exists kdj w1 t1 before raw,
      poll_fetch env symbol start_date end_date w
      = (Ok (Some (buying_power, kdj)), w1, t1)
      /\ rows kdj = before ++ [raw]
      /\ latest_kdj = mkRow (columns kdj) raw.
Proof.
  intros w w3 bp latest pos Hd.
  apply decision_point_inv in Hd as (w2 & Hi & _).
  unfold indicator_point in Hi.
  destruct (poll_fetch env symbol start_date end_date w)
    as [[[[[bp' kdj] |] | e] w1] t1]; try discriminate.
  revert Hi. unfold poll_latest. rewrite empty_or_short.
  destruct (empty kdj); [cbn; discriminate |].
  unfold_monad.
  destruct (iloc_neg kdj 1) as [r1 | e1] eqn:H1; cbn [fst snd app]; [| discriminate].
  destruct (iloc_neg_last kdj r1 H1) as (before & raw & Hrows & Hr1).
  destruct (Nat.leb 2 (len kdj)); cbn [fst snd app].
  - destruct (iloc_neg kdj 2) as [r2 | e2]; cbn [fst snd app]; [| discriminate].
    intros H; inversion H; subst. eauto 10.
  - intros H; inversion H; subst. eauto 10.
Qed.

End LatestRow.

(** Two rows, K = 15 then K = 50: the cycle decides on K = 50 and sends
    nothing. *)
Lemma decision_point_reads_last_row_witness :
  (exists kdj w1 t1 before raw,
      poll_fetch (Demo.env DemoIndicator.script2) Demo.eth 0%Z 30%Z 0%Z
      = (Ok (Some (1000%float, kdj)), w1, t1)
      /\ rows kdj = before ++ [raw]
      /\ Demo.row1 50 = mkRow (columns kdj) raw)
  /\ submitted (trace_of (poll_cycle (Demo.env DemoIndicator.script2)
                                     Demo.eth 0%Z 30%Z 0%Z)) = [].
Proof.
  split; [| reflexivity].
  apply (decision_point_reads_last_row
           (Demo.env DemoIndicator.script2) Demo.eth 0%Z 30%Z
           0%Z 0%Z 1000%float (Demo.row1 50) None).
  reflexivity.
Defined.

(** Bars that are not empty but whose index does not convert: the fetch
    logs the error and returns [None], and the cycle ends as without bars. *)
Example fetch_15min_data_index_failure :
  fetch_15min_data DemoIndicator.naive_env Demo.eth 0%Z 30%Z 0%Z
  = (Ok None, 0%Z,
     [EvGetCryptoBars Demo.eth "15Min" (fst (window 0 30)) (snd (window 0 30));
      EvLog ERROR (MsgBarsFailed Demo.eth
                     "index is not a valid DatetimeIndex or PeriodIndex")])
  /\ trace_of (poll_cycle DemoIndicator.naive_env Demo.eth 0%Z 30%Z 0%Z)
     = [EvGetAccount; EvLog INFO (MsgBuyingPower 1000);
        EvGetCryptoBars Demo.eth "15Min" (fst (window 0 30)) (snd (window 0 30));
        EvLog ERROR (MsgBarsFailed Demo.eth
                       "index is not a valid DatetimeIndex or PeriodIndex");
        EvLog WARNING MsgNoBars; EvSleep 60].
Proof. split; reflexivity. Qed.

(** One connection, then a close: the listener announces a reconnection,
    sleeps, fails and ends; the open that the script holds after the close is
    not handled. *)
Example websocket_stream_close_ends :
  trace_of (websocket_stream (DemoStream.env (Ok tt)) "key" "secret" Demo.eth
                             [CbOpen; CbClose 1006 "gone"; CbOpen] 0%Z)
  = [EvWsRunForever ws_url 30 10;
     EvLog INFO MsgWsOpen; EvWsSend (auth_msg "key" "secret");
     EvWsSend (subscribe_msg Demo.eth);
     EvLog INFO (MsgWsClosed 1006 "gone"); EvLog INFO MsgWsReconnecting; EvSleep 5;
     EvLog ERROR (MsgWsError
                    "asyncio.run() cannot be called from a running event loop")].
Proof. reflexivity. Qed.
